(** * ARC58 abstracted account: authorization and delegation engine

    A shallow embedding of the [AbstractedAccount] contract
    (abstracted_account.algo.ts) together with the properties of its
    permission store, grant evaluator, delegation controller and atomic
    batch verifier.

    Conventions
    - [uint64] and [uint8] values are [N]; the only arithmetic the contract
      performs is the subtraction in [pluginCallAllowed], whose AVM
      underflow failure is written out.
    - [Address] (a 32 byte public key) and [AppID] are [N]; [bytes] and
      [string] are [string].
    - box maps are [gmap]s; global state keys are record fields.
    - a method is a function [Env -> State -> outcome State]; [Err] is the
      AVM rejecting the call, which voids the whole transaction group. *)

From stdpp Require Import base option gmap strings list fin_maps.
From Stdlib Require Import NArith Lia.

Open Scope N_scope.

(** ** Data model *)

Definition Address := N.
Definition AppID := N.

Definition zeroAddress : Address := 0.

(** [PluginsKey]: the application containing plugin logic and the address
    allowed to initiate a rekey to it. *)
Definition PluginsKey : Type := (AppID * Address)%type.

Record PluginInfo : Type := mkPluginInfo {
  lastValidRound : N;
  cooldown : N;
  lastCalled : N;
  adminPrivileges : N
}.

Inductive TransactionType : Type :=
| Payment
| KeyRegistration
| AssetConfig
| AssetTransfer
| AssetFreeze
| ApplicationCall.

(** The transaction fields the contract reads from [this.txn] and
    [this.txnGroup]. *)
Record Txn : Type := mkTxn {
  sender : Address;
  rekeyTo : Address;
  typeEnum : TransactionType;
  applicationID : AppID;
  applicationArgs : list string
}.

Definition numAppArgs (t : Txn) : nat := length (applicationArgs t).

(** Global state keys and box maps of the contract, and [authAddrs], the
    ledger's table of auth addresses ([acct.authAddr]; an account that is
    not rekeyed has no entry and reads as [zeroAddress]). *)
Record State : Type := mkState {
  version : string;
  factoryApp : AppID;
  admin : Address;
  controlledAddress : Address;
  revocationApp : AppID;
  plugins : gmap PluginsKey PluginInfo;
  passkeys : gmap Address string;
  namedPlugins : gmap string PluginsKey;
  authAddrs : gmap Address Address
}.

(** The execution context of one call. *)
Record Env : Type := mkEnv {
  txn : Txn;
  groupIndex : nat;
  txnGroup : list Txn;
  round : N;
  callerApplicationID : AppID;
  app : AppID
}.

(** ** Failures *)

Inductive failure : Type :=
| AssertFailed (msg : string)
| AssertFailedNoMsg
| Underflow
| BoxNotFound
| InnerTxnRejected
| RouterRejected.

Inductive outcome (A : Type) : Type :=
| Ok (a : A)
| Err (e : failure).
Arguments Ok {A} a.
Arguments Err {A} e.

#[global] Instance outcome_ret : MRet outcome := fun A a => Ok a.
#[global] Instance outcome_bind : MBind outcome := fun A B f m =>
  match m with
  | Ok a => f a
  | Err e => Err e
  end.

Definition assert (c : bool) (msg : string) : outcome unit :=
  if c then Ok tt else Err (AssertFailed msg).

Definition assert_ (c : bool) : outcome unit :=
  if c then Ok tt else Err AssertFailedNoMsg.

Definition failed {A : Type} (r : outcome A) : Prop := ∃ e, r = Err e.

(** ** Error messages (errors.ts) *)

Definition ONLY_ADMIN_CAN_UPDATE : string := "Only an admin can update the application".
Definition ONLY_ADMIN_CAN_CHANGE_REVOKE : string := "Only an admin can change the revocation app".
Definition ONLY_ADMIN_CAN_CHANGE_ADMIN : string := "Only an admin can change the admin account".
Definition ONLY_ADMIN_CAN_REKEY : string := "Only an admin can rekey the account".
Definition ONLY_ADMIN_CAN_ADD_PLUGIN : string := "Only an admin can add a plugin".
Definition NAMED_PLUGIN_ALREADY_EXISTS : string := "A plugin with this name already exists".
Definition ONLY_ADMIN_OR_REVOCATION_APP_CAN_REMOVE_PLUGIN : string :=
  "Only an admin or revocation app can remove plugins".
Definition SENDER_NOT_ALLOWED_TO_CALL_PLUGIN : string :=
  "This sender is not allowed to trigger this plugin".
Definition PLUGIN_DOES_NOT_CONTROL_WALLET : string := "This plugin is not in control of the account".
Definition PLUGIN_DOES_NOT_HAVE_ADMIN_PRIVILEGES : string := "This plugin does not have admin privileges".
Definition DOMAIN_MUST_BE_LONGER_THAN_ZERO : string := "Domain must not be length 0".
Definition ADMIN_IS_CONTROLLED : string := "admin and controlled address cannot be the same".
Definition NOT_FROM_FACTORY : string := "this contract must be deployed from a factory".

(** ** Field updates *)

Definition set_version (s : State) (v : string) : State :=
  mkState v (factoryApp s) (admin s) (controlledAddress s) (revocationApp s)
          (plugins s) (passkeys s) (namedPlugins s) (authAddrs s).

Definition set_admin (s : State) (a : Address) : State :=
  mkState (version s) (factoryApp s) a (controlledAddress s) (revocationApp s)
          (plugins s) (passkeys s) (namedPlugins s) (authAddrs s).

Definition set_revocationApp (s : State) (r : AppID) : State :=
  mkState (version s) (factoryApp s) (admin s) (controlledAddress s) r
          (plugins s) (passkeys s) (namedPlugins s) (authAddrs s).

Definition set_plugins (s : State) (p : gmap PluginsKey PluginInfo) : State :=
  mkState (version s) (factoryApp s) (admin s) (controlledAddress s) (revocationApp s)
          p (passkeys s) (namedPlugins s) (authAddrs s).

Definition set_passkeys (s : State) (p : gmap Address string) : State :=
  mkState (version s) (factoryApp s) (admin s) (controlledAddress s) (revocationApp s)
          (plugins s) p (namedPlugins s) (authAddrs s).

Definition set_namedPlugins (s : State) (n : gmap string PluginsKey) : State :=
  mkState (version s) (factoryApp s) (admin s) (controlledAddress s) (revocationApp s)
          (plugins s) (passkeys s) n (authAddrs s).

Definition set_authAddrs (s : State) (l : gmap Address Address) : State :=
  mkState (version s) (factoryApp s) (admin s) (controlledAddress s) (revocationApp s)
          (plugins s) (passkeys s) (namedPlugins s) l.

Definition set_lastCalled (i : PluginInfo) (r : N) : PluginInfo :=
  mkPluginInfo (lastValidRound i) (cooldown i) r (adminPrivileges i).

(** ** What the contract imports

    [app_address] is the ledger's derivation of an application's escrow
    address ([app.address]); [AkitaDomain] is the constant exported by
    constants.ts; [verifyAuthAddr_selector] is the ABI selector
    [method('arc58_verifyAuthAddr()void')]. None of the three is defined
    in the contract source, so the development is generic in them. *)
Class Imports : Type := mkImports {
  app_address : AppID → Address;
  AkitaDomain : string;
  verifyAuthAddr_selector : string
}.

(** ** Ledger rules for the inner payments the contract issues

    An inner payment sent by application [a] on behalf of [snd] is accepted
    when the address authorised to spend for [snd] is [a]'s escrow address.
    A non-zero [rekeyTo] then replaces the auth address of [snd]; rekeying
    an account to itself clears it. The payments of the contract carry no
    amount and no fee of their own, so balances are not part of the model. *)

Definition authAddr (s : State) (a : Address) : Address :=
  default zeroAddress (authAddrs s !! a).

Definition spender (s : State) (a : Address) : Address :=
  if authAddr s a =? zeroAddress then a else authAddr s a.

Definition rekey (l : gmap Address Address) (snd rk : Address) : gmap Address Address :=
  if rk =? zeroAddress then l
  else if rk =? snd then delete snd l
  else <[snd := rk]> l.

Definition sendPayment {imp : Imports} (e : Env) (s : State) (snd rcv rk : Address) : outcome State :=
  if spender s snd =? app_address (app e)
  then Ok (set_authAddrs s (rekey (authAddrs s) snd rk))
  else Err InnerTxnRejected.

(** ** The contract *)

(** One iteration of the loop of [verifyRekeyToAbstractedAccount]: the
    transaction is an explicit rekey back, or an application call to this
    app's [arc58_verifyAuthAddr] method. *)
Definition is_explicit_rekey_back (c : Address) (t : Txn) : bool :=
  (sender t =? c) && (rekeyTo t =? c).

Definition is_ApplicationCall (ty : TransactionType) : bool :=
  match ty with
  | ApplicationCall => true
  | _ => false
  end.

Definition is_verifyAuthAddr_call {imp : Imports} (this : AppID) (t : Txn) : bool :=
  is_ApplicationCall (typeEnum t) &&
  (applicationID t =? this) &&
  Nat.eqb (numAppArgs t) 1 &&
  match applicationArgs t with
  | a0 :: _ => String.eqb a0 verifyAuthAddr_selector
  | [] => false
  end.

(** The loop itself, over the transactions from [groupIndex] to the end of
    the group; the result is the final value of [rekeyedBack]. *)
Fixpoint rekeyedBack {imp : Imports} (c : Address) (this : AppID) (txns : list Txn) : bool :=
  match txns with
  | [] => false
  | t :: rest =>
      if is_explicit_rekey_back c t then true
      else if is_verifyAuthAddr_call this t then true
      else rekeyedBack c this rest
  end.

Definition verifyRekeyToAbstractedAccount {imp : Imports} (e : Env) (s : State) : outcome unit :=
  assert_ (rekeyedBack (controlledAddress s) (app e) (drop (groupIndex e) (txnGroup e))).

Definition getAuthAddr {imp : Imports} (e : Env) (s : State) : Address :=
  if controlledAddress s =? app_address (app e) then zeroAddress else app_address (app e).

Definition isAdmin {imp : Imports} (e : Env) (s : State) : bool :=
  (sender (txn e) =? admin s) ||
  match passkeys s !! sender (txn e) with
  | Some d => String.eqb d AkitaDomain
  | None => false
  end.

Definition canRevoke {imp : Imports} (e : Env) (s : State) : bool :=
  sender (txn e) =? app_address (revocationApp s).

(** [globals.round - lastCalled] is an AVM [uint64] subtraction: it fails
    when the result would be negative. The conjunction short-circuits, so
    the subtraction is only reached for an existing, unexpired entry. *)
Definition pluginCallAllowed (e : Env) (s : State) (a : AppID) (caller : Address) : outcome bool :=
  match plugins s !! (a, caller) with
  | None => Ok false
  | Some info =>
      if round e <=? lastValidRound info then
        if lastCalled info <=? round e
        then Ok (cooldown info <=? round e - lastCalled info)
        else Err Underflow
      else Ok false
  end.

Definition createApplication {imp : Imports} (e : Env) (s : State)
    (v : string) (controlled adm : Address) (revocation : AppID) : outcome State :=
  _ ← assert (negb (adm =? controlled)) ADMIN_IS_CONTROLLED;
  _ ← assert (negb (callerApplicationID e =? 0)) NOT_FROM_FACTORY;
  Ok (mkState v (callerApplicationID e) adm
        (if controlled =? zeroAddress then app_address (app e) else controlled)
        revocation (plugins s) (passkeys s) (namedPlugins s) (authAddrs s)).

Definition updateApplication {imp : Imports} (e : Env) (s : State) (v : string) : outcome State :=
  _ ← assert (isAdmin e s) ONLY_ADMIN_CAN_UPDATE;
  Ok (set_version s v).

Definition changeRevocationApp {imp : Imports} (e : Env) (s : State) (r : AppID) : outcome State :=
  _ ← assert (isAdmin e s) ONLY_ADMIN_CAN_CHANGE_REVOKE;
  Ok (set_revocationApp s r).

Definition arc58_changeAdmin {imp : Imports} (e : Env) (s : State) (newAdmin : Address) : outcome State :=
  _ ← assert (isAdmin e s) ONLY_ADMIN_CAN_CHANGE_ADMIN;
  Ok (set_admin s newAdmin).

(** [verifyTxn(this.txn, { sender: plugin.address })] is an assertion
    without a message; [adminPrivileges] is a [uint8] used as a condition,
    true when it is not zero. *)
Definition arc58_pluginChangeAdmin {imp : Imports} (e : Env) (s : State)
    (plugin : AppID) (allowedCaller newAdmin : Address) : outcome State :=
  _ ← assert_ (sender (txn e) =? app_address plugin);
  _ ← assert (authAddr s (controlledAddress s) =? app_address plugin)
             PLUGIN_DOES_NOT_CONTROL_WALLET;
  _ ← assert (match plugins s !! (plugin, allowedCaller) with
              | Some info => negb (adminPrivileges info =? 0)
              | None => false
              end) PLUGIN_DOES_NOT_HAVE_ADMIN_PRIVILEGES;
  Ok (set_admin s newAdmin).

Definition arc58_verifyAuthAddr {imp : Imports} (e : Env) (s : State) : outcome State :=
  _ ← assert_ (authAddr s (controlledAddress s) =? getAuthAddr e s);
  Ok s.

Definition arc58_rekeyTo {imp : Imports} (e : Env) (s : State) (addr : Address) : outcome State :=
  _ ← assert (isAdmin e s) ONLY_ADMIN_CAN_REKEY;
  s1 ← sendPayment e s (controlledAddress s) addr addr;
  _ ← verifyRekeyToAbstractedAccount e s1;
  Ok s1.

(** [this.plugins(key).value.lastCalled = globals.round] rewrites one field
    of an existing box; it fails when the box does not exist. *)
Definition stamp_lastCalled (e : Env) (s : State) (k : PluginsKey) : outcome State :=
  match plugins s !! k with
  | Some info => Ok (set_plugins s (<[k := set_lastCalled info (round e)]> (plugins s)))
  | None => Err BoxNotFound
  end.

Definition arc58_rekeyToPlugin {imp : Imports} (e : Env) (s : State) (plugin : AppID) : outcome State :=
  globalAllowed ← pluginCallAllowed e s plugin zeroAddress;
  _ ← (if globalAllowed : bool then Ok tt
       else allowed ← pluginCallAllowed e s plugin (sender (txn e));
            assert allowed SENDER_NOT_ALLOWED_TO_CALL_PLUGIN);
  s1 ← sendPayment e s (controlledAddress s) (controlledAddress s) (app_address plugin);
  s2 ← stamp_lastCalled e s1
         (plugin, if globalAllowed : bool then zeroAddress else sender (txn e));
  _ ← verifyRekeyToAbstractedAccount e s2;
  Ok s2.

(** [this.namedPlugins(name).value] fails when the name has no box. *)
Definition arc58_rekeyToNamedPlugin {imp : Imports} (e : Env) (s : State) (name : string) : outcome State :=
  match namedPlugins s !! name with
  | Some k => arc58_rekeyToPlugin e s (fst k)
  | None => Err BoxNotFound
  end.

Definition arc58_addPlugin {imp : Imports} (e : Env) (s : State)
    (a : AppID) (allowedCaller : Address) (lvr cd : N)
    (adminPriv isPasskey : bool) (domain : string) : outcome State :=
  _ ← assert (isAdmin e s) ONLY_ADMIN_CAN_ADD_PLUGIN;
  let s1 := set_plugins s
              (<[(a, allowedCaller) := mkPluginInfo lvr cd 0 (if adminPriv then 1 else 0)]>
                 (plugins s)) in
  if isPasskey then
    _ ← assert (Nat.ltb 0 (String.length domain)) DOMAIN_MUST_BE_LONGER_THAN_ZERO;
    Ok (set_passkeys s1 (<[allowedCaller := domain]> (passkeys s1)))
  else Ok s1.

Definition arc58_removePlugin {imp : Imports} (e : Env) (s : State)
    (a : AppID) (allowedCaller : Address) : outcome State :=
  _ ← assert (isAdmin e s || canRevoke e s) ONLY_ADMIN_OR_REVOCATION_APP_CAN_REMOVE_PLUGIN;
  Ok (set_plugins s (delete (a, allowedCaller) (plugins s))).

Definition arc58_addNamedPlugin {imp : Imports} (e : Env) (s : State)
    (name : string) (a : AppID) (allowedCaller : Address) (lvr cd : N)
    (adminPriv : bool) : outcome State :=
  _ ← assert (isAdmin e s) ONLY_ADMIN_CAN_ADD_PLUGIN;
  _ ← assert (negb (bool_decide (is_Some (namedPlugins s !! name)))) NAMED_PLUGIN_ALREADY_EXISTS;
  let key : PluginsKey := (a, allowedCaller) in
  let s1 := set_namedPlugins s (<[name := key]> (namedPlugins s)) in
  Ok (set_plugins s1
        (<[key := mkPluginInfo lvr cd 0 (if adminPriv then 1 else 0)]> (plugins s1))).

Definition arc58_removeNamedPlugin {imp : Imports} (e : Env) (s : State) (name : string) : outcome State :=
  _ ← assert (isAdmin e s || canRevoke e s) ONLY_ADMIN_OR_REVOCATION_APP_CAN_REMOVE_PLUGIN;
  match namedPlugins s !! name with
  | Some k =>
      let s1 := set_namedPlugins s (delete name (namedPlugins s)) in
      Ok (set_plugins s1 (delete k (plugins s1)))
  | None => Err BoxNotFound
  end.

(** ** Method calls and transaction groups *)

Inductive Call : Type :=
| CreateApplication (v : string) (controlled adm : Address) (revocation : AppID)
| UpdateApplication (v : string)
| ChangeRevocationApp (r : AppID)
| Arc58_changeAdmin (newAdmin : Address)
| Arc58_pluginChangeAdmin (plugin : AppID) (allowedCaller newAdmin : Address)
| Arc58_verifyAuthAddr
| Arc58_rekeyTo (addr : Address)
| Arc58_rekeyToPlugin (plugin : AppID)
| Arc58_rekeyToNamedPlugin (name : string)
| Arc58_addPlugin (a : AppID) (allowedCaller : Address) (lvr cd : N)
                  (adminPriv isPasskey : bool) (domain : string)
| Arc58_removePlugin (a : AppID) (allowedCaller : Address)
| Arc58_addNamedPlugin (name : string) (a : AppID) (allowedCaller : Address)
                       (lvr cd : N) (adminPriv : bool)
| Arc58_removeNamedPlugin (name : string).

Definition dispatch {imp : Imports} (e : Env) (c : Call) (s : State) : outcome State :=
  match c with
  | CreateApplication v controlled adm revocation =>
      createApplication e s v controlled adm revocation
  | UpdateApplication v => updateApplication e s v
  | ChangeRevocationApp r => changeRevocationApp e s r
  | Arc58_changeAdmin newAdmin => arc58_changeAdmin e s newAdmin
  | Arc58_pluginChangeAdmin plugin allowedCaller newAdmin =>
      arc58_pluginChangeAdmin e s plugin allowedCaller newAdmin
  | Arc58_verifyAuthAddr => arc58_verifyAuthAddr e s
  | Arc58_rekeyTo addr => arc58_rekeyTo e s addr
  | Arc58_rekeyToPlugin plugin => arc58_rekeyToPlugin e s plugin
  | Arc58_rekeyToNamedPlugin name => arc58_rekeyToNamedPlugin e s name
  | Arc58_addPlugin a allowedCaller lvr cd adminPriv isPasskey domain =>
      arc58_addPlugin e s a allowedCaller lvr cd adminPriv isPasskey domain
  | Arc58_removePlugin a allowedCaller => arc58_removePlugin e s a allowedCaller
  | Arc58_addNamedPlugin name a allowedCaller lvr cd adminPriv =>
      arc58_addNamedPlugin e s name a allowedCaller lvr cd adminPriv
  | Arc58_removeNamedPlugin name => arc58_removeNamedPlugin e s name
  end.

(** The operations that hand the controlled account to somebody else. *)
Definition is_delegation (c : Call) : bool :=
  match c with
  | Arc58_rekeyTo _ | Arc58_rekeyToPlugin _ | Arc58_rekeyToNamedPlugin _ => true
  | _ => false
  end.

(** The operations that write a whole [PluginInfo]. *)
Definition is_registration (c : Call) : bool :=
  match c with
  | Arc58_addPlugin _ _ _ _ _ _ _ | Arc58_addNamedPlugin _ _ _ _ _ _ => true
  | _ => false
  end.

(** The operations that delete a [PluginInfo]. *)
Definition is_removal (c : Call) : bool :=
  match c with
  | Arc58_removePlugin _ _ | Arc58_removeNamedPlugin _ => true
  | _ => false
  end.

(** What surrounds the contract when a group runs: [decode] is the ABI
    router generated for the contract (application arguments to method
    call), [external] is the effect of every transaction of the group that
    is not a call to this application. *)
Class Runtime : Type := mkRuntime {
  decode : list string → option Call;
  external : Env → State → outcome State
}.

Definition is_call_to (this : AppID) (t : Txn) : bool :=
  is_ApplicationCall (typeEnum t) && (applicationID t =? this).

(** Transactions of a group submitted to the network are top level: their
    caller application is 0. *)
Definition group_env (g : list Txn) (rnd : N) (this : AppID) (i : nat) (t : Txn) : Env :=
  mkEnv t i g rnd 0 this.

Definition exec_txn {imp : Imports} {rt : Runtime} (g : list Txn) (rnd : N) (this : AppID)
    (i : nat) (t : Txn) (s : State) : outcome State :=
  if is_call_to this t then
    match decode (applicationArgs t) with
    | Some c => dispatch (group_env g rnd this i t) c s
    | None => Err RouterRejected
    end
  else external (group_env g rnd this i t) s.

Fixpoint run_from {imp : Imports} {rt : Runtime} (g : list Txn) (rnd : N) (this : AppID)
    (i : nat) (rest : list Txn) (s : State) : outcome State :=
  match rest with
  | [] => Ok s
  | t :: rest' =>
      s' ← exec_txn g rnd this i t s;
      run_from g rnd this (S i) rest' s'
  end.

Definition run_group {imp : Imports} {rt : Runtime} (g : list Txn) (rnd : N) (this : AppID)
    (s : State) : outcome State :=
  run_from g rnd this 0 g s.

(** A group commits as a whole or not at all. *)
Definition commit_group {imp : Imports} {rt : Runtime} (g : list Txn) (rnd : N) (this : AppID)
    (s : State) : State :=
  match run_group g rnd this s with
  | Ok s' => s'
  | Err _ => s
  end.

(** ** Predicates of the properties *)

(** Every name of [namedPlugins] points at an existing entry of [plugins]. *)
Definition named_ok (s : State) : Prop :=
  ∀ name k, namedPlugins s !! name = Some k → is_Some (plugins s !! k).

(** No transaction at or after position [i] of the group is an explicit
    rekey back to [c] or a call of [arc58_verifyAuthAddr] on [this]. *)
Definition no_return_step {imp : Imports} (c : Address) (this : AppID) (g : list Txn) (i : nat) : Prop :=
  ∀ j t, (i ≤ j)%nat → g !! j = Some t →
    is_explicit_rekey_back c t = false ∧ is_verifyAuthAddr_call this t = false.

(** The key whose entry a delegation to [plugin] stamps: the wildcard key
    when the wildcard entry is active, the sender's key otherwise. *)
Definition matched_key (e : Env) (s : State) (plugin : AppID) : PluginsKey :=
  match pluginCallAllowed e s plugin zeroAddress with
  | Ok true => (plugin, zeroAddress)
  | _ => (plugin, sender (txn e))
  end.

(** The state a successful delegation to [plugin] leaves: the controlled
    account is rekeyed to the plugin and the matched entry is stamped. *)
Definition delegated {imp : Imports} (e : Env) (s : State) (plugin : AppID) (info : PluginInfo) : State :=
  mkState (version s) (factoryApp s) (admin s) (controlledAddress s) (revocationApp s)
    (<[matched_key e s plugin := set_lastCalled info (round e)]> (plugins s))
    (passkeys s) (namedPlugins s)
    (rekey (authAddrs s) (controlledAddress s) (app_address plugin)).

(** The state after one call made on its own: a rejected call leaves the
    state as it was. *)
Definition after {imp : Imports} (e : Env) (c : Call) (s : State) : State :=
  match dispatch e c s with
  | Ok s' => s'
  | Err _ => s
  end.

(** ** A concrete instance, to run the model

    Application 50 is the wallet, application 7 a plugin, application 60
    the revocation app and application 9 the factory; address 1 is the
    admin, address 2 the controlled account and address 3 some other
    caller. *)

Definition sample_imports : Imports :=
  mkImports (fun a => a + 1000) "akita" "vaa0".

Definition sample_decode (args : list string) : option Call :=
  match args with
  | [a0] =>
      if String.eqb a0 "vaa0" then Some Arc58_verifyAuthAddr
      else if String.eqb a0 "plug" then Some (Arc58_rekeyToPlugin 7)
      else None
  | _ => None
  end.

Definition sample_runtime : Runtime :=
  mkRuntime sample_decode (fun _ s => Ok s).

Definition call_txn (snd : Address) (a0 : string) : Txn :=
  mkTxn snd zeroAddress ApplicationCall 50 [a0].

Definition sample_env (snd : Address) (i : nat) (g : list Txn) (rnd : N) : Env :=
  mkEnv (call_txn snd "call") i g rnd 0 50.

Definition blank : State :=
  mkState EmptyString 0 0 0 0 ∅ ∅ ∅ {[ 2 := 1050 ]}.

(** The wallet as the factory creates it. *)
Definition wallet : State :=
  mkState "v1" 9 1 2 60 ∅ ∅ ∅ {[ 2 := 1050 ]}.

Definition wildcard_grant : PluginInfo := mkPluginInfo 1000 5 0 0.

(** The wallet with a wildcard grant for plugin 7, used at round 7. *)
Definition wallet_used : State :=
  set_plugins wallet {[ (7, zeroAddress) := mkPluginInfo 1000 5 7 0 ]}.

(** The wallet with plugin 7 registered for any caller under a name. *)
Definition wallet_named : State :=
  set_namedPlugins
    (set_plugins wallet {[ (7, zeroAddress) := wildcard_grant ]})
    {[ "x" := (7, zeroAddress) ]}.

(** The wallet while plugin 7 controls the account, with and without admin
    privileges. *)
Definition wallet_delegated (priv : N) : State :=
  set_authAddrs
    (set_plugins wallet {[ (7, 3) := mkPluginInfo 1000 0 0 priv ]})
    {[ 2 := 1007 ]}.

(** ** The factory (AbstractedAccountFactory) *)

Record Factory : Type := mkFactory {
  abstractedAccountVersion : string;
  revocationAppID : AppID
}.

Definition factory_createApplication (v : string) (r : AppID) : Factory :=
  mkFactory v r.

(** [this.app.creator] is read from the ledger; it is an argument here. *)
Definition factory_updateApplication (e : Env) (appCreator : Address) : outcome unit :=
  assert_ (sender (txn e) =? appCreator).

(** The storage of an application that is being created: no box, no global
    written yet; [ledger] is the table of auth addresses at that time. *)
Definition fresh_app (ledger : gmap Address Address) : State :=
  mkState EmptyString 0 0 0 0 ∅ ∅ ∅ ledger.

(** The inner application call by which an application [caller] reaches
    another one: it is sent by the caller's escrow address and is alone in
    its inner group. *)
Definition inner_call {imp : Imports} (caller target : AppID) (args : list string) : Txn :=
  mkTxn (app_address caller) zeroAddress ApplicationCall target args.

Definition inner_env {imp : Imports} (e : Env) (target : AppID) (args : list string)
    (callee : AppID) : Env :=
  mkEnv (inner_call (app e) target args) 0 [inner_call (app e) target args]
        (round e) (app e) callee.

(** [mint] creates a wallet with an inner call of its [createApplication];
    the call is to application 0, the ledger picks the identifier [created]
    of the new application, and the arguments reach [createApplication]
    decoded. The result is the storage of the new wallet. *)
Definition mint {imp : Imports} (f : Factory) (e : Env) (created : AppID)
    (ledger : gmap Address Address) (controlled adm : Address) : outcome State :=
  createApplication (inner_env e 0 [] created) (fresh_app ledger)
    (abstractedAccountVersion f) controlled adm (revocationAppID f).

(** ** The recovery plugin (RecoveryPlugin)

    [sha256] is the AVM opcode, [recover_selector] is
    [methodSelector('arc58_pluginChangeAdmin(address)void')] and
    [address_bytes] the 32 bytes of an address as an application argument;
    the development is generic in the three. *)
Class RecoveryImports : Type := mkRecoveryImports {
  sha256 : string → string;
  recover_selector : string;
  address_bytes : Address → string
}.

Record RecoveryPlugin : Type := mkRecoveryPlugin {
  creator : AppID;
  hash : string
}.

Definition recovery_createApplication (c : AppID) (h : string) : RecoveryPlugin :=
  mkRecoveryPlugin c h.

(** [recover], run by the plugin application [app e] against the wallet
    [creator p], whose storage is [s]. The inner application call goes
    through the wallet's router; the inner payment is sent on behalf of the
    wallet's escrow address. *)
Definition recover {imp : Imports} {rt : Runtime} {ri : RecoveryImports}
    (p : RecoveryPlugin) (e : Env) (s : State)
    (sender_arg : AppID) (prehash : string) (newAdmin : Address) : outcome State :=
  _ ← assert (creator p =? sender_arg) "sender mismatch";
  _ ← assert (String.eqb (sha256 (sha256 prehash)) (hash p)) "prehash mismatch";
  let args := [recover_selector; address_bytes newAdmin] in
  s1 ← match decode args with
       | Some c => dispatch (inner_env e (creator p) args (creator p)) c s
       | None => Err RouterRejected
       end;
  let creatorAddress := app_address (creator p) in
  sendPayment e s1 creatorAddress creatorAddress creatorAddress.

(** ** More predicates *)

(** No entry of [plugins] carries a stamp later than round [r]. *)
Definition stamps_le (r : N) (s : State) : Prop :=
  ∀ k info, plugins s !! k = Some info → lastCalled info ≤ r.

(** A transaction the forward scan accepts as a return step. *)
Definition is_return_step {imp : Imports} (c : Address) (this : AppID) (t : Txn) : bool :=
  is_explicit_rekey_back c t || is_verifyAuthAddr_call this t.

(** The caller is an admin through a passkey bound to [AkitaDomain]. *)
Definition is_coadmin {imp : Imports} (s : State) (a : Address) : bool :=
  match passkeys s !! a with
  | Some d => String.eqb d AkitaDomain
  | None => false
  end.

(** A second concrete instance: a hash that doubles its input, a router
    that knows the application arguments the recovery plugin sends. *)
Definition sample_recovery_imports : RecoveryImports :=
  mkRecoveryImports (fun x => String.append x x) "pca0" (fun _ => "addr").

Definition recovery_decode (args : list string) : option Call :=
  match args with
  | [a0; _] =>
      if String.eqb a0 "pca0" then Some (Arc58_pluginChangeAdmin 7 3 8) else None
  | _ => None
  end.

Definition recovery_runtime : Runtime :=
  mkRuntime recovery_decode (fun _ s => Ok s).

(** A wallet that controls its own escrow address 1050, while plugin 7
    holds it with admin privileges. *)
Definition wallet_self_delegated : State :=
  mkState "v1" 9 1 1050 60 {[ (7, 3) := mkPluginInfo 1000 0 0 1 ]} ∅ ∅ {[ 1050 := 1007 ]}.

(** The wallet with address 3 bound to the co-admin domain. *)
Definition wallet_passkey : State :=
  set_passkeys wallet {[ 3 := "akita" ]}.

(** Caller 3 calls the recovery plugin, application 7, which was created
    for wallet 50 with the double hash of the word secret. *)
Definition plugin_env : Env :=
  mkEnv (mkTxn 3 zeroAddress ApplicationCall 7 ["recover"]) 0
        [mkTxn 3 zeroAddress ApplicationCall 7 ["recover"]] 10 0 7.

Definition sample_recovery : RecoveryPlugin :=
  recovery_createApplication 50 "secretsecretsecretsecret".

(** ** Basic facts about failures and assertions *)

Lemma bind_Ok {A B : Type} (m : outcome A) (f : A → outcome B) (b : B) :
  m ≫= f = Ok b ↔ ∃ a, m = Ok a ∧ f a = Ok b.
Proof.
  destruct m as [a|err]; simpl.
  - split; [eauto | intros (a' & [= ->] & Hf); exact Hf].
  - split; [discriminate | intros (a' & [=] & _)].
Qed.

Lemma bind_failed {A B : Type} (m : outcome A) (f : A → outcome B) :
  failed m → failed (m ≫= f).
Proof. intros [err ->]. exists err. reflexivity. Qed.

Lemma failed_not_Ok {A : Type} (r : outcome A) (a : A) : failed r → r ≠ Ok a.
Proof. intros [err ->]. discriminate. Qed.

Lemma assert_Ok (c : bool) (msg : string) (u : unit) : assert c msg = Ok u ↔ c = true.
Proof. destruct c, u; simpl; split; congruence. Qed.

Lemma assert__Ok (c : bool) (u : unit) : assert_ c = Ok u ↔ c = true.
Proof. destruct c, u; simpl; split; congruence. Qed.

(** Unfolds one layer of sequencing in a hypothesis [_ = Ok _]. *)
Ltac ok_inv H :=
  repeat match type of H with
  | _ ≫= _ = Ok _ =>
      let a := fresh "a" in
      let Ha := fresh "Ha" in
      apply bind_Ok in H as (a & Ha & H)
  end.

(** ** Grant evaluator *)

Lemma pluginCallAllowed_true (e : Env) (s : State) (a : AppID) (caller : Address) :
  pluginCallAllowed e s a caller = Ok true ↔
  ∃ info, plugins s !! (a, caller) = Some info ∧
          round e ≤ lastValidRound info ∧
          lastCalled info ≤ round e ∧
          cooldown info ≤ round e - lastCalled info.
Proof.
  unfold pluginCallAllowed.
  destruct (plugins s !! (a, caller)) as [info|]; [|split; [discriminate | intros (? & [=] & _)]].
  destruct (N.leb_spec (round e) (lastValidRound info)) as [Hv|Hv].
  - destruct (N.leb_spec (lastCalled info) (round e)) as [Hc|Hc].
    + destruct (N.leb_spec (cooldown info) (round e - lastCalled info)) as [Hd|Hd].
      * split; [eauto 10 | reflexivity].
      * split; [discriminate | intros (i & [= <-] & _ & _ & ?); lia].
    + split; [discriminate | intros (i & [= <-] & _ & ? & _); lia].
  - split; [discriminate | intros (i & [= <-] & ? & _); lia].
Qed.

(** C4. [pluginCallAllowed] returns false when no entry exists at the key
    [(app, caller)]; it returns false when the current round is past
    [lastValidRound], whatever the cooldown; and for an existing, unexpired
    entry it returns true exactly when the current round minus
    [lastCalled] is at least the cooldown. *)
Theorem pluginCallAllowed_spec (e : Env) (s : State) (a : AppID) (caller : Address) :
  (plugins s !! (a, caller) = None → pluginCallAllowed e s a caller = Ok false) ∧
  (∀ info, plugins s !! (a, caller) = Some info →
     lastValidRound info < round e →
     pluginCallAllowed e s a caller = Ok false) ∧
  (∀ info, plugins s !! (a, caller) = Some info →
     round e ≤ lastValidRound info →
     (pluginCallAllowed e s a caller = Ok true ↔
      (Z.of_N (cooldown info) ≤ Z.of_N (round e) - Z.of_N (lastCalled info))%Z)).
Proof.
  split; [|split].
  - intros Hnone. unfold pluginCallAllowed. rewrite Hnone. reflexivity.
  - intros info Hinfo Hexp. unfold pluginCallAllowed. rewrite Hinfo.
    destruct (N.leb_spec (round e) (lastValidRound info)); [lia | reflexivity].
  - intros info Hinfo Hvalid. split.
    + intros Htrue. apply pluginCallAllowed_true in Htrue as (i & Hi & _ & Hc & Hd).
      rewrite Hinfo in Hi. injection Hi as <-. lia.
    + intros Hz. apply pluginCallAllowed_true. exists info.
      repeat split; [assumption | lia..].
Qed.

(** ** Creation *)

(** C8. [createApplication] fails when the supplied admin equals the
    supplied controlled address, and fails when the caller application ID
    is zero; otherwise it initialises version, factory, admin, revocation
    app and controlled address. *)
Theorem createApplication_spec {imp : Imports} (e : Env) (s : State)
    (v : string) (controlled adm : Address) (revocation : AppID) :
  (adm = controlled → failed (createApplication e s v controlled adm revocation)) ∧
  (callerApplicationID e = 0 → failed (createApplication e s v controlled adm revocation)) ∧
  (adm ≠ controlled → callerApplicationID e ≠ 0 →
   ∃ s', createApplication e s v controlled adm revocation = Ok s' ∧
         version s' = v ∧
         factoryApp s' = callerApplicationID e ∧
         admin s' = adm ∧
         revocationApp s' = revocation ∧
         controlledAddress s' =
           (if controlled =? zeroAddress then app_address (app e) else controlled)).
Proof.
  unfold createApplication. repeat split.
  - intros ->. rewrite N.eqb_refl. simpl. eexists; reflexivity.
  - intros ->. rewrite N.eqb_refl.
    destruct (adm =? controlled); simpl; eexists; reflexivity.
  - intros Hne Hcaller.
    apply N.eqb_neq in Hne as ->. apply N.eqb_neq in Hcaller as ->. simpl.
    eexists. split; [reflexivity|]. simpl. repeat split.
Qed.

(** ** Removal of a plugin *)

(** C9. For an admin or the revocation app, [arc58_removePlugin] deletes
    the entry of [plugins] at the given key and nothing else: every other
    entry of [plugins], all passkeys, all named plugins, the admin, the
    revocation app, the controlled address (and version, factory and auth
    addresses) are unchanged. *)
Theorem removePlugin_frame {imp : Imports} (e : Env) (s : State) (a : AppID) (allowedCaller : Address) :
  isAdmin e s || canRevoke e s = true →
  ∃ s', arc58_removePlugin e s a allowedCaller = Ok s' ∧
        plugins s' !! (a, allowedCaller) = None ∧
        (∀ k, k ≠ (a, allowedCaller) → plugins s' !! k = plugins s !! k) ∧
        passkeys s' = passkeys s ∧
        namedPlugins s' = namedPlugins s ∧
        admin s' = admin s ∧
        revocationApp s' = revocationApp s ∧
        controlledAddress s' = controlledAddress s ∧
        version s' = version s ∧
        factoryApp s' = factoryApp s ∧
        authAddrs s' = authAddrs s.
Proof.
  intros Hauth. unfold arc58_removePlugin. rewrite Hauth. simpl.
  eexists. split; [reflexivity|]. simpl.
  split; [apply lookup_delete_eq|].
  split; [intros k Hk; apply lookup_delete_ne; congruence|].
  repeat split.
Qed.

(** ** Changing the admin through a plugin *)


(** ** Named plugins *)

Lemma addNamedPlugin_Ok {imp : Imports} (e : Env) (s : State)
    (name : string) (a : AppID) (allowedCaller : Address) (lvr cd : N) (adminPriv : bool) :
  isAdmin e s = true →
  namedPlugins s !! name = None →
  arc58_addNamedPlugin e s name a allowedCaller lvr cd adminPriv =
    Ok (mkState (version s) (factoryApp s) (admin s) (controlledAddress s) (revocationApp s)
          (<[(a, allowedCaller) := mkPluginInfo lvr cd 0 (if adminPriv then 1 else 0)]>
             (plugins s))
          (passkeys s)
          (<[name := (a, allowedCaller)]> (namedPlugins s))
          (authAddrs s)).
Proof.
  intros Hadm Hfresh. unfold arc58_addNamedPlugin. rewrite Hadm, Hfresh. reflexivity.
Qed.

Lemma addNamedPlugin_inv {imp : Imports} (e : Env) (s s' : State)
    (name : string) (a : AppID) (allowedCaller : Address) (lvr cd : N) (adminPriv : bool) :
  arc58_addNamedPlugin e s name a allowedCaller lvr cd adminPriv = Ok s' →
  isAdmin e s = true ∧ namedPlugins s !! name = None.
Proof.
  unfold arc58_addNamedPlugin. intros Hok.
  destruct (isAdmin e s); [|discriminate]. split; [reflexivity|].
  destruct (namedPlugins s !! name) eqn:Hn; [|reflexivity].
  simpl in Hok. discriminate.
Qed.

(** C10. For a name not yet registered, a successful
    [arc58_addNamedPlugin] whose key [(app, allowedCaller)] already holds
    an entry of [plugins] overwrites that entry: [lastValidRound],
    [cooldown] and [adminPrivileges] are replaced by the arguments and
    [lastCalled] is reset to 0. An admin's call does succeed. *)
Theorem addNamedPlugin_overwrites {imp : Imports} (e : Env) (s : State)
    (name : string) (a : AppID) (allowedCaller : Address) (lvr cd : N) (adminPriv : bool)
    (old : PluginInfo) :
  namedPlugins s !! name = None →
  plugins s !! (a, allowedCaller) = Some old →
  (isAdmin e s = true →
   ∃ s', arc58_addNamedPlugin e s name a allowedCaller lvr cd adminPriv = Ok s') ∧
  (∀ s', arc58_addNamedPlugin e s name a allowedCaller lvr cd adminPriv = Ok s' →
     plugins s' !! (a, allowedCaller) =
       Some (mkPluginInfo lvr cd 0 (if adminPriv then 1 else 0)) ∧
     namedPlugins s' !! name = Some (a, allowedCaller)).
Proof.
  intros Hfresh Hold. split.
  - intros Hadm. eexists. apply addNamedPlugin_Ok; assumption.
  - intros s' Hok.
    destruct (addNamedPlugin_inv _ _ _ _ _ _ _ _ _ Hok) as [Hadm _].
    rewrite (addNamedPlugin_Ok e s name a allowedCaller lvr cd adminPriv Hadm Hfresh) in Hok.
    injection Hok as <-. simpl. split; apply lookup_insert_eq.
Qed.


(** ** Inversion of the delegation path *)

Lemma sendPayment_Ok {imp : Imports} (e : Env) (s s1 : State) (snd rcv rk : Address) :
  sendPayment e s snd rcv rk = Ok s1 ↔
  spender s snd = app_address (app e) ∧ s1 = set_authAddrs s (rekey (authAddrs s) snd rk).
Proof.
  unfold sendPayment.
  destruct (N.eqb_spec (spender s snd) (app_address (app e))) as [Heq|Hne].
  - split; [intros [= <-]; auto | intros [_ ->]; reflexivity].
  - split; [discriminate | intros [? _]; contradiction].
Qed.

Lemma stamp_lastCalled_Ok (e : Env) (s s2 : State) (k : PluginsKey) :
  stamp_lastCalled e s k = Ok s2 ↔
  ∃ info, plugins s !! k = Some info ∧
          s2 = set_plugins s (<[k := set_lastCalled info (round e)]> (plugins s)).
Proof.
  unfold stamp_lastCalled. destruct (plugins s !! k) as [info|].
  - split; [intros [= <-]; eauto | intros (i & [= <-] & ->); reflexivity].
  - split; [discriminate | intros (i & [=] & _)].
Qed.

Lemma verifyRekey_Ok {imp : Imports} (e : Env) (s : State) (u : unit) :
  verifyRekeyToAbstractedAccount e s = Ok u ↔
  rekeyedBack (controlledAddress s) (app e) (drop (groupIndex e) (txnGroup e)) = true.
Proof. unfold verifyRekeyToAbstractedAccount. apply assert__Ok. Qed.

Lemma rekeyToPlugin_Ok {imp : Imports} (e : Env) (s s' : State) (plugin : AppID) :
  arc58_rekeyToPlugin e s plugin = Ok s' ↔
  (pluginCallAllowed e s plugin zeroAddress = Ok true ∨
   pluginCallAllowed e s plugin zeroAddress = Ok false ∧
   pluginCallAllowed e s plugin (sender (txn e)) = Ok true) ∧
  spender s (controlledAddress s) = app_address (app e) ∧
  rekeyedBack (controlledAddress s) (app e) (drop (groupIndex e) (txnGroup e)) = true ∧
  ∃ info, plugins s !! matched_key e s plugin = Some info ∧ s' = delegated e s plugin info.
Proof.
  unfold arc58_rekeyToPlugin, matched_key. split.
  - intros Hok. ok_inv Hok.
    apply sendPayment_Ok in Ha1 as [Hsp ->].
    apply stamp_lastCalled_Ok in Ha2 as (info & Hinfo & ->).
    apply verifyRekey_Ok in Ha3. simpl in *. injection Hok as <-.
    rewrite Ha. destruct a as [|].
    + split; [left; reflexivity|]. repeat split; try assumption.
      exists info. split; [assumption|].
      unfold delegated, matched_key. rewrite Ha. reflexivity.
    + ok_inv Ha0. apply assert_Ok in Ha0 as ->.
      split; [right; split; [reflexivity | assumption]|].
      repeat split; try assumption.
      exists info. split; [assumption|].
      unfold delegated, matched_key. rewrite Ha. reflexivity.
  - intros (Hact & Hsp & Hback & info & Hinfo & ->).
    assert (Hpay : sendPayment e s (controlledAddress s) (controlledAddress s)
                     (app_address plugin) =
                   Ok (set_authAddrs s (rekey (authAddrs s) (controlledAddress s)
                                          (app_address plugin))))
      by (apply sendPayment_Ok; auto).
    unfold delegated, matched_key.
    destruct Hact as [Hw|[Hw Hc]]; rewrite Hw in *; simpl; [|rewrite Hc; simpl];
      rewrite Hpay; simpl; unfold stamp_lastCalled; simpl; rewrite Hinfo; simpl;
      unfold verifyRekeyToAbstractedAccount; simpl; rewrite Hback; reflexivity.
Qed.

Lemma matched_key_wildcard (e : Env) (s : State) (plugin : AppID) :
  pluginCallAllowed e s plugin zeroAddress = Ok true →
  matched_key e s plugin = (plugin, zeroAddress).
Proof. unfold matched_key. intros ->. reflexivity. Qed.

Lemma matched_key_sender (e : Env) (s : State) (plugin : AppID) :
  pluginCallAllowed e s plugin zeroAddress = Ok false →
  matched_key e s plugin = (plugin, sender (txn e)).
Proof. unfold matched_key. intros ->. reflexivity. Qed.

(** ** Wildcard resolution *)


(** ** What each operation does to [plugins] and [namedPlugins] *)

(** A delegation stamps one existing entry with the current round, which
    is not below the round stored there. *)
Lemma rekeyToPlugin_plugins {imp : Imports} (e : Env) (s s' : State) (plugin : AppID) :
  arc58_rekeyToPlugin e s plugin = Ok s' →
  namedPlugins s' = namedPlugins s ∧
  ∃ k info, plugins s !! k = Some info ∧ lastCalled info ≤ round e ∧
            plugins s' = <[k := set_lastCalled info (round e)]> (plugins s).
Proof.
  intros Hok. apply rekeyToPlugin_Ok in Hok as (Hact & _ & _ & info & Hinfo & ->).
  split; [reflexivity|]. exists (matched_key e s plugin), info.
  split; [assumption|]. split; [|reflexivity].
  destruct Hact as [Hw|[Hw Hc]].
  - rewrite (matched_key_wildcard e s plugin Hw) in Hinfo.
    apply pluginCallAllowed_true in Hw as (i & Hi & _ & Hle & _).
    pose proof (eq_trans (eq_sym Hi) Hinfo) as Heq. injection Heq as ->. exact Hle.
  - rewrite (matched_key_sender e s plugin Hw) in Hinfo.
    apply pluginCallAllowed_true in Hc as (i & Hi & _ & Hle & _).
    pose proof (eq_trans (eq_sym Hi) Hinfo) as Heq. injection Heq as ->. exact Hle.
Qed.

(** Every operation that neither registers nor removes a plugin leaves
    [namedPlugins] alone, and leaves [plugins] alone or stamps one entry. *)
Lemma dispatch_plain {imp : Imports} (e : Env) (c : Call) (s s' : State) :
  dispatch e c s = Ok s' →
  is_registration c = false → is_removal c = false →
  namedPlugins s' = namedPlugins s ∧
  (plugins s' = plugins s ∨
   ∃ k info, plugins s !! k = Some info ∧ lastCalled info ≤ round e ∧
             plugins s' = <[k := set_lastCalled info (round e)]> (plugins s)).
Proof.
  intros Hok Hreg Hrem. destruct c; simpl in *; try discriminate.
  - unfold createApplication in Hok. ok_inv Hok. injection Hok as <-. auto.
  - unfold updateApplication in Hok. ok_inv Hok. injection Hok as <-. auto.
  - unfold changeRevocationApp in Hok. ok_inv Hok. injection Hok as <-. auto.
  - unfold arc58_changeAdmin in Hok. ok_inv Hok. injection Hok as <-. auto.
  - unfold arc58_pluginChangeAdmin in Hok. ok_inv Hok. injection Hok as <-. auto.
  - unfold arc58_verifyAuthAddr in Hok. ok_inv Hok. injection Hok as <-. auto.
  - unfold arc58_rekeyTo in Hok. ok_inv Hok. injection Hok as <-.
    apply sendPayment_Ok in Ha0 as [_ ->]. auto.
  - apply rekeyToPlugin_plugins in Hok as [Hn Hp]. auto.
  - unfold arc58_rekeyToNamedPlugin in Hok.
    destruct (namedPlugins s !! name); [|discriminate].
    apply rekeyToPlugin_plugins in Hok as [Hn Hp]. auto.
Qed.

Lemma addPlugin_plugins {imp : Imports} (e : Env) (s s' : State)
    (a : AppID) (allowedCaller : Address) (lvr cd : N)
    (adminPriv isPasskey : bool) (domain : string) :
  arc58_addPlugin e s a allowedCaller lvr cd adminPriv isPasskey domain = Ok s' →
  namedPlugins s' = namedPlugins s ∧
  plugins s' = <[(a, allowedCaller) := mkPluginInfo lvr cd 0 (if adminPriv then 1 else 0)]>
                 (plugins s).
Proof.
  unfold arc58_addPlugin. intros Hok. ok_inv Hok.
  destruct isPasskey.
  - ok_inv Hok. injection Hok as <-. auto.
  - injection Hok as <-. auto.
Qed.

Lemma removePlugin_plugins {imp : Imports} (e : Env) (s s' : State)
    (a : AppID) (allowedCaller : Address) :
  arc58_removePlugin e s a allowedCaller = Ok s' →
  namedPlugins s' = namedPlugins s ∧ plugins s' = delete (a, allowedCaller) (plugins s).
Proof.
  unfold arc58_removePlugin. intros Hok. ok_inv Hok. injection Hok as <-. auto.
Qed.

Lemma removeNamedPlugin_Ok {imp : Imports} (e : Env) (s s' : State) (name : string) :
  arc58_removeNamedPlugin e s name = Ok s' ↔
  isAdmin e s || canRevoke e s = true ∧
  ∃ k, namedPlugins s !! name = Some k ∧
       s' = mkState (version s) (factoryApp s) (admin s) (controlledAddress s)
              (revocationApp s) (delete k (plugins s)) (passkeys s)
              (delete name (namedPlugins s)) (authAddrs s).
Proof.
  unfold arc58_removeNamedPlugin. split.
  - intros Hok. ok_inv Hok. apply assert_Ok in Ha. split; [assumption|].
    destruct (namedPlugins s !! name) as [k|]; [|discriminate].
    injection Hok as <-. eauto.
  - intros (-> & k & -> & ->). reflexivity.
Qed.

(** ** The usage stamp of a grant *)


(** ** Named plugins and the entries they point at *)


(** ** The atomic batch verifier *)

Lemma rekeyedBack_false {imp : Imports} (c : Address) (this : AppID) (l : list Txn) :
  (∀ t, t ∈ l → is_explicit_rekey_back c t = false ∧ is_verifyAuthAddr_call this t = false) →
  rekeyedBack c this l = false.
Proof.
  induction l as [|t l IH]; intros Hall; [reflexivity|]. simpl.
  destruct (Hall t) as [-> ->]; [left|].
  apply IH. intros t' Ht'. apply Hall. right. exact Ht'.
Qed.

Lemma no_return_step_scan {imp : Imports} (c : Address) (this : AppID) (g : list Txn) (i : nat) :
  no_return_step c this g i → rekeyedBack c this (drop i g) = false.
Proof.
  intros Hno. apply rekeyedBack_false. intros t Ht.
  apply list_elem_of_lookup in Ht as [j Hj]. rewrite lookup_drop in Hj.
  apply (Hno (i + j)%nat t); [lia | exact Hj].
Qed.

Lemma dispatch_controlledAddress {imp : Imports} (e : Env) (c : Call) (s s' : State) :
  callerApplicationID e = 0 →
  dispatch e c s = Ok s' →
  controlledAddress s' = controlledAddress s.
Proof.
  intros Htop Hok. destruct c; simpl in Hok.
  - unfold createApplication in Hok. rewrite Htop in Hok. ok_inv Hok. discriminate.
  - unfold updateApplication in Hok. ok_inv Hok. injection Hok as <-. reflexivity.
  - unfold changeRevocationApp in Hok. ok_inv Hok. injection Hok as <-. reflexivity.
  - unfold arc58_changeAdmin in Hok. ok_inv Hok. injection Hok as <-. reflexivity.
  - unfold arc58_pluginChangeAdmin in Hok. ok_inv Hok. injection Hok as <-. reflexivity.
  - unfold arc58_verifyAuthAddr in Hok. ok_inv Hok. injection Hok as <-. reflexivity.
  - unfold arc58_rekeyTo in Hok. ok_inv Hok. injection Hok as <-.
    apply sendPayment_Ok in Ha0 as [_ ->]. reflexivity.
  - apply rekeyToPlugin_Ok in Hok as (_ & _ & _ & info & _ & ->). reflexivity.
  - unfold arc58_rekeyToNamedPlugin in Hok.
    destruct (namedPlugins s !! name); [|discriminate].
    apply rekeyToPlugin_Ok in Hok as (_ & _ & _ & info & _ & ->). reflexivity.
  - unfold arc58_addPlugin in Hok. ok_inv Hok. destruct isPasskey.
    + ok_inv Hok. injection Hok as <-. reflexivity.
    + injection Hok as <-. reflexivity.
  - unfold arc58_removePlugin in Hok. ok_inv Hok. injection Hok as <-. reflexivity.
  - unfold arc58_addNamedPlugin in Hok. ok_inv Hok. injection Hok as <-. reflexivity.
  - apply removeNamedPlugin_Ok in Hok as (_ & k & _ & ->). reflexivity.
Qed.

(** A delegating call whose forward scan finds nothing fails. *)
Lemma delegation_rejected {imp : Imports} (e : Env) (c : Call) (s : State) :
  is_delegation c = true →
  rekeyedBack (controlledAddress s) (app e) (drop (groupIndex e) (txnGroup e)) = false →
  failed (dispatch e c s).
Proof.
  intros Hdel Hscan.
  destruct (dispatch e c s) as [s'|err] eqn:Hd; [exfalso | eexists; reflexivity].
  destruct c; simpl in *; try discriminate.
  - unfold arc58_rekeyTo in Hd. ok_inv Hd.
    apply sendPayment_Ok in Ha0 as [_ ->]. apply verifyRekey_Ok in Ha1.
    simpl in Ha1. congruence.
  - apply rekeyToPlugin_Ok in Hd as (_ & _ & Hback & _). congruence.
  - unfold arc58_rekeyToNamedPlugin in Hd.
    destruct (namedPlugins s !! name); [|discriminate].
    apply rekeyToPlugin_Ok in Hd as (_ & _ & Hback & _). congruence.
Qed.

(** C1. Take a transaction group in which the transaction at position [i]
    is a call to this application that decodes to [arc58_rekeyTo],
    [arc58_rekeyToPlugin] or [arc58_rekeyToNamedPlugin]. If no transaction
    at position [i] or later is an explicit rekey back (sender and rekeyTo
    both the controlled address) or a call of [arc58_verifyAuthAddr] on
    this application, then the delegating call fails, the group is
    rejected, and the state after the group is the state before it. The
    other transactions of the group are arbitrary, except that they do not
    rewrite the controlled address, which the contract writes at creation
    only. *)
Theorem batch_without_return_rejected {imp : Imports} {rt : Runtime}
    (g : list Txn) (rnd : N) (this : AppID) (s : State) (i : nat) (t : Txn) (c : Call) :
  (∀ e s1 s2, external e s1 = Ok s2 → controlledAddress s2 = controlledAddress s1) →
  g !! i = Some t →
  is_call_to this t = true →
  decode (applicationArgs t) = Some c →
  is_delegation c = true →
  no_return_step (controlledAddress s) this g i →
  (∀ s1, controlledAddress s1 = controlledAddress s →
         failed (dispatch (group_env g rnd this i t) c s1)) ∧
  failed (run_group g rnd this s) ∧
  commit_group g rnd this s = s.
Proof.
  intros Hext Hi Hcall Hdec Hdel Hno.
  assert (Hop : ∀ s1, controlledAddress s1 = controlledAddress s →
                      failed (dispatch (group_env g rnd this i t) c s1)).
  { intros s1 Hc. apply delegation_rejected; [assumption|].
    simpl. rewrite Hc. apply no_return_step_scan. assumption. }
  assert (Hrun : ∀ rest k s1, drop k g = rest → (k ≤ i)%nat →
                   controlledAddress s1 = controlledAddress s →
                   failed (run_from g rnd this k rest s1)).
  { induction rest as [|t' rest IH]; intros k s1 Hdrop Hk Hc.
    - apply drop_nil_inv in Hdrop. apply lookup_lt_Some in Hi. lia.
    - assert (Hk' : g !! k = Some t').
      { rewrite <- (Nat.add_0_r k), <- lookup_drop, Hdrop. reflexivity. }
      assert (Hrest : drop (S k) g = rest).
      { rewrite <- Nat.add_1_r, <- drop_drop, Hdrop. reflexivity. }
      simpl. destruct (decide (k = i)) as [->|Hne].
      + assert (t' = t) as -> by congruence.
        apply bind_failed. unfold exec_txn. rewrite Hcall, Hdec. apply Hop. assumption.
      + destruct (exec_txn g rnd this k t' s1) as [s2|err] eqn:Hex;
          [|eexists; reflexivity].
        simpl. apply IH; [assumption | lia |].
        rewrite <- Hc. unfold exec_txn in Hex.
        destruct (is_call_to this t').
        * destruct (decode (applicationArgs t')) as [c'|]; [|discriminate].
          eapply dispatch_controlledAddress; [|exact Hex]. reflexivity.
        * apply (Hext _ _ _ Hex). }
  assert (Hgroup : failed (run_group g rnd this s)).
  { unfold run_group. apply (Hrun g 0%nat s); [reflexivity | lia | reflexivity]. }
  split; [exact Hop|]. split; [exact Hgroup|].
  unfold commit_group. destruct Hgroup as [err ->]. reflexivity.
Qed.

(** ** The theorems at concrete inputs *)

(** A group made of a single delegation to plugin 7 is rejected. *)
Lemma batch_without_return_rejected_witness :
  no_return_step (imp := sample_imports) (controlledAddress wallet_named) 50 [call_txn 3 "plug"] 0 ∧
  failed (run_group (imp := sample_imports) (rt := sample_runtime)
            [call_txn 3 "plug"] 10 50 wallet_named) ∧
  commit_group (imp := sample_imports) (rt := sample_runtime)
    [call_txn 3 "plug"] 10 50 wallet_named = wallet_named.
Proof.
  assert (Hno : no_return_step (imp := sample_imports) (controlledAddress wallet_named) 50
                  [call_txn 3 "plug"] 0).
  { intros j t _ Hj. destruct j as [|j]; simpl in Hj; [|discriminate].
    injection Hj as <-. split; reflexivity. }
  split; [exact Hno|].
  apply (batch_without_return_rejected (imp := sample_imports) (rt := sample_runtime)
           [call_txn 3 "plug"] 10 50 wallet_named 0 (call_txn 3 "plug") (Arc58_rekeyToPlugin 7)).
  - intros e s1 s2 Hext. simpl in Hext. injection Hext as <-. reflexivity.
  - reflexivity.
  - reflexivity.
  - reflexivity.
  - reflexivity.
  - exact Hno.
Defined.




(** An entry with expiry 1000, cooldown 5 and last use at round 7 is
    inactive at round 8, active at round 12 and inactive at round 1001. *)
Lemma pluginCallAllowed_spec_witness :
  pluginCallAllowed (sample_env 3 0 [] 8) wallet_used 7 zeroAddress = Ok false ∧
  pluginCallAllowed (sample_env 3 0 [] 12) wallet_used 7 zeroAddress = Ok true ∧
  pluginCallAllowed (sample_env 3 0 [] 1001) wallet_used 7 zeroAddress = Ok false ∧
  pluginCallAllowed (sample_env 3 0 [] 12) wallet_used 7 3 = Ok false.
Proof.
  split; [reflexivity|]. split; [|split].
  - apply (proj2 (proj2 (pluginCallAllowed_spec (sample_env 3 0 [] 12) wallet_used 7 zeroAddress))
             (mkPluginInfo 1000 5 7 0)); [reflexivity | simpl; lia | simpl; lia].
  - apply (proj1 (proj2 (pluginCallAllowed_spec (sample_env 3 0 [] 1001) wallet_used 7 zeroAddress))
             (mkPluginInfo 1000 5 7 0)); [reflexivity | simpl; lia].
  - apply (proj1 (pluginCallAllowed_spec (sample_env 3 0 [] 12) wallet_used 7 3)). reflexivity.
Defined.







(** The factory, application 9, creates the wallet with a zero controlled
    address: the wallet controls its own escrow address. *)
Lemma createApplication_spec_witness :
  ∃ s', createApplication (imp := sample_imports) (mkEnv (call_txn 1009 "call") 0 [] 1 9 50)
          blank "v1" zeroAddress 1 60 = Ok s' ∧
        admin s' = 1 ∧ factoryApp s' = 9 ∧ controlledAddress s' = 1050.
Proof.
  destruct (proj2 (proj2 (createApplication_spec (imp := sample_imports)
                            (mkEnv (call_txn 1009 "call") 0 [] 1 9 50)
                            blank "v1" zeroAddress 1 60)))
    as (s' & Hok & _ & Hf & Ha & _ & Hc); [discriminate | discriminate |].
  exists s'. split; [exact Hok|]. split; [exact Ha|]. split; [exact Hf | exact Hc].
Defined.

(** The revocation app removes the entry of plugin 7; the name x stays. *)
Lemma removePlugin_frame_witness :
  ∃ s', arc58_removePlugin (imp := sample_imports) (sample_env 1060 0 [] 10) wallet_named
          7 zeroAddress = Ok s' ∧
        plugins s' !! (7, zeroAddress) = None ∧
        namedPlugins s' = namedPlugins wallet_named ∧
        admin s' = 1.
Proof.
  destruct (removePlugin_frame (imp := sample_imports) (sample_env 1060 0 [] 10) wallet_named
              7 zeroAddress eq_refl)
    as (s' & Hok & Hgone & _ & _ & Hnamed & Hadmin & _).
  exists s'. split; [exact Hok|]. split; [exact Hgone|]. split; [exact Hnamed | exact Hadmin].
Defined.

(** The admin names the used wildcard entry of plugin 7: its stamp 7 is
    replaced by 0 and its other fields by the arguments. *)
Lemma addNamedPlugin_overwrites_witness :
  plugins wallet_used !! (7, zeroAddress) = Some (mkPluginInfo 1000 5 7 0) ∧
  ∃ s', arc58_addNamedPlugin (imp := sample_imports) (sample_env 1 0 [] 10) wallet_used
          "y" 7 zeroAddress 2000 9 true = Ok s' ∧
        plugins s' !! (7, zeroAddress) = Some (mkPluginInfo 2000 9 0 1).
Proof.
  split; [reflexivity|].
  destruct (addNamedPlugin_overwrites (imp := sample_imports) (sample_env 1 0 [] 10) wallet_used
              "y" 7 zeroAddress 2000 9 true (mkPluginInfo 1000 5 7 0) eq_refl eq_refl)
    as [Hex Hall].
  destruct (Hex eq_refl) as [s' Hok].
  exists s'. split; [exact Hok|]. exact (proj1 (Hall s' Hok)).
Defined.

(** ** Further properties of the contract *)

(** *** The forward scan *)

Lemma rekeyedBack_true {imp : Imports} (c : Address) (this : AppID) (l : list Txn) :
  rekeyedBack c this l = true ↔ ∃ t, t ∈ l ∧ is_return_step c this t = true.
Proof.
  unfold is_return_step. induction l as [|t l IH]; simpl.
  - split; [discriminate | intros (t & Ht & _); inversion Ht].
  - destruct (is_explicit_rekey_back c t) eqn:He; simpl.
    + split; [intros _; exists t; split; [left | rewrite He; reflexivity] | reflexivity].
    + destruct (is_verifyAuthAddr_call this t) eqn:Hv.
      * split; [intros _; exists t; split; [left | rewrite He, Hv; reflexivity] | reflexivity].
      * rewrite IH. split.
        -- intros (t' & Ht' & Hr). exists t'. split; [right; assumption | assumption].
        -- intros (t' & Ht' & Hr). apply elem_of_cons in Ht' as [->|Ht'].
           ++ rewrite He, Hv in Hr. discriminate.
           ++ eauto.
Qed.

(** The batch verifier accepts exactly when some transaction at the
    position of the call or later is an explicit rekey back or a call of
    [arc58_verifyAuthAddr] on this application; in particular it rejects
    when the position is past the end of the group. *)
Theorem verifyRekey_iff_return_step {imp : Imports} (e : Env) (s : State) :
  (verifyRekeyToAbstractedAccount e s = Ok tt ↔
   ∃ j t, (groupIndex e ≤ j)%nat ∧ txnGroup e !! j = Some t ∧
          is_return_step (controlledAddress s) (app e) t = true) ∧
  ((length (txnGroup e) ≤ groupIndex e)%nat →
   verifyRekeyToAbstractedAccount e s = Err AssertFailedNoMsg).
Proof.
  split.
  - rewrite verifyRekey_Ok, rekeyedBack_true. split.
    + intros (t & Ht & Hr). apply list_elem_of_lookup in Ht as [j Hj].
      rewrite lookup_drop in Hj. exists (groupIndex e + j)%nat, t.
      split; [lia|]. split; assumption.
    + intros (j & t & Hj & Ht & Hr). exists t. split; [|assumption].
      apply list_elem_of_lookup. exists (j - groupIndex e)%nat.
      rewrite lookup_drop. replace (groupIndex e + (j - groupIndex e))%nat with j by lia.
      assumption.
  - intros Hlen. unfold verifyRekeyToAbstractedAccount.
    rewrite drop_ge by assumption. reflexivity.
Qed.

(** *** Stamps and the evaluator's subtraction *)

(** Where no stamp lies in the future the evaluator never fails, and every
    operation keeps that property for the round it runs in. *)
Theorem stamps_le_preserved {imp : Imports} (e : Env) (s : State) :
  stamps_le (round e) s →
  (∀ a caller, ∃ b, pluginCallAllowed e s a caller = Ok b) ∧
  (∀ c s', dispatch e c s = Ok s' → stamps_le (round e) s').
Proof.
  intros Hinv. split.
  - intros a caller. unfold pluginCallAllowed.
    destruct (plugins s !! (a, caller)) as [info|] eqn:Hinfo; [|eauto].
    destruct (round e <=? lastValidRound info); [|eauto].
    destruct (N.leb_spec (lastCalled info) (round e)) as [Hle|Hgt]; [eauto|].
    pose proof (Hinv _ _ Hinfo). lia.
  - intros c s' Hok k info' Hk.
    destruct (is_registration c) eqn:Hreg.
    + assert (Hins : ∃ k0 lvr cd ap,
                plugins s' = <[k0 := mkPluginInfo lvr cd 0 ap]> (plugins s)).
      { destruct c; simpl in *; try discriminate.
        - apply addPlugin_plugins in Hok as [_ Hp]. eauto.
        - pose proof (addNamedPlugin_inv _ _ _ _ _ _ _ _ _ Hok) as [Hadm Hfresh].
          rewrite (addNamedPlugin_Ok e s name a allowedCaller lvr cd adminPriv Hadm Hfresh) in Hok.
          injection Hok as <-. simpl. eauto. }
      destruct Hins as (k0 & lvr & cd & ap & Hp). rewrite Hp in Hk.
      destruct (decide (k = k0)) as [->|Hne].
      * rewrite lookup_insert_eq in Hk. injection Hk as <-. simpl. lia.
      * rewrite lookup_insert_ne in Hk by congruence. exact (Hinv _ _ Hk).
    + destruct (is_removal c) eqn:Hrem.
      * assert (Hdel : ∃ k0, plugins s' = delete k0 (plugins s)).
        { destruct c; simpl in *; try discriminate.
          - apply removePlugin_plugins in Hok as [_ Hp]. eauto.
          - apply removeNamedPlugin_Ok in Hok as (_ & k0 & _ & ->). simpl. eauto. }
        destruct Hdel as [k0 Hp]. rewrite Hp in Hk.
        destruct (decide (k = k0)) as [->|Hne].
        -- rewrite lookup_delete_eq in Hk. discriminate.
        -- rewrite lookup_delete_ne in Hk by congruence. exact (Hinv _ _ Hk).
      * destruct (dispatch_plain e c s s' Hok Hreg Hrem)
          as [_ [Hp|(k0 & info & Hinfo & _ & Hp)]]; rewrite Hp in Hk.
        -- exact (Hinv _ _ Hk).
        -- destruct (decide (k = k0)) as [->|Hne].
           ++ rewrite lookup_insert_eq in Hk. injection Hk as <-. simpl. lia.
           ++ rewrite lookup_insert_ne in Hk by congruence. exact (Hinv _ _ Hk).
Qed.

(** An unexpired entry stamped after the current round makes the evaluator
    fail; when that entry is the wildcard one, a delegation fails whatever
    is stored for the sender. *)
Theorem future_stamp_underflow {imp : Imports} (e : Env) (s : State)
    (a : AppID) (caller : Address) (info : PluginInfo) :
  plugins s !! (a, caller) = Some info →
  round e ≤ lastValidRound info →
  round e < lastCalled info →
  pluginCallAllowed e s a caller = Err Underflow ∧
  (caller = zeroAddress → arc58_rekeyToPlugin e s a = Err Underflow).
Proof.
  intros Hinfo Hvalid Hfuture.
  assert (Hpca : pluginCallAllowed e s a caller = Err Underflow).
  { unfold pluginCallAllowed. rewrite Hinfo.
    destruct (N.leb_spec (round e) (lastValidRound info)); [|lia].
    destruct (N.leb_spec (lastCalled info) (round e)); [lia | reflexivity]. }
  split; [exact Hpca|]. intros ->. unfold arc58_rekeyToPlugin. rewrite Hpca. reflexivity.
Qed.

(** *** Admin policy *)

(** The message with which an admin-only operation turns a caller away. *)
Lemma admin_only_messages {imp : Imports} (e : Env) (s : State) :
  isAdmin e s = false →
  (∀ v, updateApplication e s v = Err (AssertFailed ONLY_ADMIN_CAN_UPDATE)) ∧
  (∀ r, changeRevocationApp e s r = Err (AssertFailed ONLY_ADMIN_CAN_CHANGE_REVOKE)) ∧
  (∀ n, arc58_changeAdmin e s n = Err (AssertFailed ONLY_ADMIN_CAN_CHANGE_ADMIN)) ∧
  (∀ a, arc58_rekeyTo e s a = Err (AssertFailed ONLY_ADMIN_CAN_REKEY)) ∧
  (∀ a ac lvr cd ap ip d,
     arc58_addPlugin e s a ac lvr cd ap ip d = Err (AssertFailed ONLY_ADMIN_CAN_ADD_PLUGIN)) ∧
  (∀ n a ac lvr cd ap,
     arc58_addNamedPlugin e s n a ac lvr cd ap = Err (AssertFailed ONLY_ADMIN_CAN_ADD_PLUGIN)).
Proof.
  intros Hna.
  unfold updateApplication, changeRevocationApp, arc58_changeAdmin, arc58_rekeyTo,
    arc58_addPlugin, arc58_addNamedPlugin.
  rewrite Hna. repeat split.
Qed.

(** A caller that is neither the admin address nor a passkey bound to
    [AkitaDomain] is turned away by every admin-only operation, each with
    its own message, even when it is the revocation app. *)
Theorem admin_only_operations {imp : Imports} (e : Env) (s : State) (c : Call) :
  sender (txn e) ≠ admin s →
  passkeys s !! sender (txn e) ≠ Some AkitaDomain →
  match c with
  | UpdateApplication _ => dispatch e c s = Err (AssertFailed ONLY_ADMIN_CAN_UPDATE)
  | ChangeRevocationApp _ => dispatch e c s = Err (AssertFailed ONLY_ADMIN_CAN_CHANGE_REVOKE)
  | Arc58_changeAdmin _ => dispatch e c s = Err (AssertFailed ONLY_ADMIN_CAN_CHANGE_ADMIN)
  | Arc58_rekeyTo _ => dispatch e c s = Err (AssertFailed ONLY_ADMIN_CAN_REKEY)
  | Arc58_addPlugin _ _ _ _ _ _ _ | Arc58_addNamedPlugin _ _ _ _ _ _ =>
      dispatch e c s = Err (AssertFailed ONLY_ADMIN_CAN_ADD_PLUGIN)
  | _ => True
  end.
Proof.
  intros Hsender Hpass.
  assert (Hna : isAdmin e s = false).
  { unfold isAdmin. apply N.eqb_neq in Hsender as ->. simpl.
    destruct (passkeys s !! sender (txn e)) as [d|] eqn:Hd; [|reflexivity].
    apply String.eqb_neq. intros ->. contradiction. }
  destruct (admin_only_messages e s Hna) as (Hu & Hr & Hc & Hk & Hp & Hn).
  destruct c; simpl; auto.
Qed.



(** *** Registration, use and the evaluator *)

(** A freshly registered entry starts with stamp 0: it is active at
    exactly the rounds from [cooldown] to [lastValidRound], so a cooldown
    larger than the expiry gives an entry that is never active. *)
Theorem fresh_registration_window {imp : Imports} (e : Env) (s s' : State) (c : Call)
    (a : AppID) (allowedCaller : Address) (lvr cd : N) :
  (∃ ap ip d, c = Arc58_addPlugin a allowedCaller lvr cd ap ip d) ∨
  (∃ n ap, c = Arc58_addNamedPlugin n a allowedCaller lvr cd ap) →
  dispatch e c s = Ok s' →
  (∀ e', pluginCallAllowed e' s' a allowedCaller =
         Ok ((round e' <=? lvr) && (cd <=? round e'))) ∧
  (lvr < cd → ∀ e', pluginCallAllowed e' s' a allowedCaller = Ok false).
Proof.
  intros Hc Hok.
  assert (Hentry : ∃ ap, plugins s' !! (a, allowedCaller) = Some (mkPluginInfo lvr cd 0 ap)).
  { destruct Hc as [(ap & ip & d & ->)|(n & ap & ->)]; simpl in Hok.
    - apply addPlugin_plugins in Hok as [_ ->]. eexists. apply lookup_insert_eq.
    - pose proof (addNamedPlugin_inv _ _ _ _ _ _ _ _ _ Hok) as [Hadm Hfresh].
      rewrite (addNamedPlugin_Ok e s n a allowedCaller lvr cd ap Hadm Hfresh) in Hok.
      injection Hok as <-. simpl. eexists. apply lookup_insert_eq. }
  destruct Hentry as [ap Hentry].
  assert (Hall : ∀ e', pluginCallAllowed e' s' a allowedCaller =
                       Ok ((round e' <=? lvr) && (cd <=? round e'))).
  { intros e'. unfold pluginCallAllowed. rewrite Hentry. simpl.
    destruct (round e' <=? lvr); [|reflexivity].
    destruct (N.leb_spec 0 (round e')) as [_|Hneg]; [|lia].
    rewrite N.sub_0_r. reflexivity. }
  split; [exact Hall|].
  intros Hlt e'. rewrite Hall.
  destruct (N.leb_spec (round e') lvr), (N.leb_spec cd (round e')); try reflexivity. lia.
Qed.

(** After a successful delegation the entry that matched is active again
    exactly at the rounds that are no earlier than the round of the
    delegation plus the cooldown and no later than the expiry. *)
Theorem cooldown_after_use {imp : Imports} (e : Env) (s s' : State) (plugin : AppID) :
  arc58_rekeyToPlugin e s plugin = Ok s' →
  ∃ info, plugins s !! matched_key e s plugin = Some info ∧
    ∀ e', pluginCallAllowed e' s' plugin (matched_key e s plugin).2 = Ok true ↔
          round e + cooldown info ≤ round e' ∧ round e' ≤ lastValidRound info.
Proof.
  intros Hok. apply rekeyToPlugin_Ok in Hok as (Hact & _ & _ & info & Hinfo & ->).
  exists info. split; [assumption|]. intros e'.
  assert (Hkey : matched_key e s plugin = (plugin, (matched_key e s plugin).2)).
  { unfold matched_key. destruct (pluginCallAllowed e s plugin zeroAddress) as [[|]|]; reflexivity. }
  rewrite pluginCallAllowed_true. simpl. rewrite <- Hkey, lookup_insert_eq. split.
  - intros (i & [= <-] & Hv & Hc & Hd). simpl in *. lia.
  - intros [Hc Hv]. eexists. split; [reflexivity|]. simpl. lia.
Qed.

(** *** Adding and removing *)



(** Once both the wildcard entry and the caller's entry of a plugin are
    removed, the caller's delegation to the plugin fails with
    [SENDER_NOT_ALLOWED_TO_CALL_PLUGIN]. *)
Theorem removed_plugin_unusable {imp : Imports} (e1 e2 e : Env) (s s1 s2 : State) (plugin : AppID) :
  arc58_removePlugin e1 s plugin zeroAddress = Ok s1 →
  arc58_removePlugin e2 s1 plugin (sender (txn e)) = Ok s2 →
  arc58_rekeyToPlugin e s2 plugin = Err (AssertFailed SENDER_NOT_ALLOWED_TO_CALL_PLUGIN).
Proof.
  intros H1 H2.
  apply removePlugin_plugins in H1 as [_ Hp1]. apply removePlugin_plugins in H2 as [_ Hp2].
  assert (Hw : pluginCallAllowed e s2 plugin zeroAddress = Ok false).
  { unfold pluginCallAllowed. rewrite Hp2, Hp1.
    destruct (decide ((plugin, sender (txn e)) = (plugin, zeroAddress))) as [Heq|Hne].
    - rewrite Heq, lookup_delete_eq. reflexivity.
    - rewrite lookup_delete_ne, lookup_delete_eq by exact Hne. reflexivity. }
  assert (Hc : pluginCallAllowed e s2 plugin (sender (txn e)) = Ok false).
  { unfold pluginCallAllowed. rewrite Hp2, lookup_delete_eq. reflexivity. }
  unfold arc58_rekeyToPlugin. rewrite Hw. simpl. rewrite Hc. reflexivity.
Qed.

(** *** What operations never do *)

(** Inverts a successful call of any method but the delegations. *)
Ltac method_inv H :=
  unfold createApplication, updateApplication, changeRevocationApp, arc58_changeAdmin,
    arc58_pluginChangeAdmin, arc58_verifyAuthAddr, arc58_rekeyTo, arc58_removePlugin,
    arc58_addNamedPlugin in H;
  ok_inv H;
  repeat match goal with
  | Ha : assert _ _ = Ok _ |- _ => apply assert_Ok in Ha
  | Ha : assert_ _ = Ok _ |- _ => apply assert__Ok in Ha
  | Ha : sendPayment _ _ _ _ _ = Ok _ |- _ => apply sendPayment_Ok in Ha as [? ->]
  end;
  try (injection H as <-).

Lemma rekeyToNamedPlugin_Ok {imp : Imports} (e : Env) (s s' : State) (name : string) :
  arc58_rekeyToNamedPlugin e s name = Ok s' →
  ∃ k, namedPlugins s !! name = Some k ∧ arc58_rekeyToPlugin e s k.1 = Ok s'.
Proof.
  unfold arc58_rekeyToNamedPlugin. destruct (namedPlugins s !! name) as [k|]; [eauto | discriminate].
Qed.

Lemma addPlugin_inv {imp : Imports} (e : Env) (s s' : State)
    (a : AppID) (allowedCaller : Address) (lvr cd : N)
    (adminPriv isPasskey : bool) (domain : string) :
  arc58_addPlugin e s a allowedCaller lvr cd adminPriv isPasskey domain = Ok s' →
  isAdmin e s = true ∧
  (isPasskey = true → domain ≠ EmptyString) ∧
  let s1 := set_plugins s
              (<[(a, allowedCaller) := mkPluginInfo lvr cd 0 (if adminPriv then 1 else 0)]>
                 (plugins s)) in
  s' = if isPasskey then set_passkeys s1 (<[allowedCaller := domain]> (passkeys s)) else s1.
Proof.
  unfold arc58_addPlugin. intros Hok.
  destruct (isAdmin e s); [|discriminate]. simpl in Hok.
  split; [reflexivity|]. destruct isPasskey.
  - destruct domain as [|ch rest]; [discriminate|]. simpl in Hok. injection Hok as <-.
    split; [discriminate | reflexivity].
  - injection Hok as <-. split; [discriminate | reflexivity].
Qed.

(** No operation deletes a passkey: a binding stays as it is, unless an
    admin's [arc58_addPlugin] for the same address writes a new domain
    over it. *)
Theorem passkeys_never_removed {imp : Imports} (e : Env) (c : Call) (s s' : State)
    (a : Address) (d : string) :
  dispatch e c s = Ok s' →
  passkeys s !! a = Some d →
  passkeys s' !! a = Some d ∨
  (isAdmin e s = true ∧
   ∃ p lvr cd ap d', c = Arc58_addPlugin p a lvr cd ap true d' ∧ d' ≠ EmptyString ∧
                     passkeys s' !! a = Some d').
Proof.
  intros Hok Hd. destruct c; simpl in Hok;
    try (method_inv Hok; left; exact Hd).
  - apply rekeyToPlugin_Ok in Hok as (_ & _ & _ & info & _ & ->). left. exact Hd.
  - apply rekeyToNamedPlugin_Ok in Hok as (k & _ & Hok).
    apply rekeyToPlugin_Ok in Hok as (_ & _ & _ & info & _ & ->). left. exact Hd.
  - apply addPlugin_inv in Hok as (Hadm & Hdom & ->).
    destruct isPasskey; simpl; [|left; exact Hd].
    destruct (decide (allowedCaller = a)) as [->|Hne].
    + right. split; [assumption|]. eexists _, lvr, cd, adminPriv, domain.
      split; [reflexivity|]. split; [auto | apply lookup_insert_eq].
    + left. rewrite lookup_insert_ne by assumption. exact Hd.
  - apply removeNamedPlugin_Ok in Hok as (_ & k & _ & ->). left. exact Hd.
Qed.

(** The admin changes only at creation, by [arc58_changeAdmin] from an
    admin, or by [arc58_pluginChangeAdmin] from a plugin that holds the
    account and has admin privileges. *)
Theorem admin_changed_only_by {imp : Imports} (e : Env) (c : Call) (s s' : State) :
  dispatch e c s = Ok s' →
  admin s' ≠ admin s →
  (∃ v ctrl r, c = CreateApplication v ctrl (admin s') r ∧ callerApplicationID e ≠ 0) ∨
  (c = Arc58_changeAdmin (admin s') ∧ isAdmin e s = true) ∨
  (∃ p ac info, c = Arc58_pluginChangeAdmin p ac (admin s') ∧
                sender (txn e) = app_address p ∧
                authAddr s (controlledAddress s) = app_address p ∧
                plugins s !! (p, ac) = Some info ∧ adminPrivileges info ≠ 0).
Proof.
  intros Hok Hne. destruct c; simpl in Hok;
    try (method_inv Hok; simpl in Hne; congruence).
  - method_inv Hok. simpl. left. exists v, controlled, revocation.
    split; [reflexivity|]. apply negb_true_iff, N.eqb_neq in Ha0. exact Ha0.
  - method_inv Hok. simpl. right. left. auto.
  - method_inv Hok. simpl. right. right.
    destruct (plugins s !! (plugin, allowedCaller)) as [info|] eqn:Hinfo; [|discriminate].
    exists plugin, allowedCaller, info.
    apply N.eqb_eq in Ha, Ha0. apply negb_true_iff, N.eqb_neq in Ha1. auto.
  - apply rekeyToPlugin_Ok in Hok as (_ & _ & _ & info & _ & ->). simpl in Hne. congruence.
  - apply rekeyToNamedPlugin_Ok in Hok as (k & _ & Hok).
    apply rekeyToPlugin_Ok in Hok as (_ & _ & _ & info & _ & ->). simpl in Hne. congruence.
  - apply addPlugin_inv in Hok as (_ & _ & ->).
    destruct isPasskey; simpl in Hne; congruence.
  - apply removeNamedPlugin_Ok in Hok as (_ & k & _ & ->). simpl in Hne. congruence.
Qed.

(** A caller that is not an admin can neither create nor alter a grant, a
    name or a passkey: after its call every entry of [plugins] is an entry
    from before with the same expiry, cooldown and admin privileges, every
    name is a name from before, and the passkeys are the same. *)
Theorem non_admin_cannot_grant {imp : Imports} (e : Env) (c : Call) (s s' : State) :
  isAdmin e s = false →
  dispatch e c s = Ok s' →
  passkeys s' = passkeys s ∧
  (∀ n k, namedPlugins s' !! n = Some k → namedPlugins s !! n = Some k) ∧
  (∀ k info', plugins s' !! k = Some info' →
     ∃ info, plugins s !! k = Some info ∧
             lastValidRound info' = lastValidRound info ∧
             cooldown info' = cooldown info ∧
             adminPrivileges info' = adminPrivileges info).
Proof.
  intros Hna Hok.
  destruct (admin_only_messages e s Hna) as (Hu & Hr & Hc & Hk & Hp & Hn).
  assert (Hstamp : ∀ k0 info0, plugins s !! k0 = Some info0 → ∀ r k info',
            <[k0 := set_lastCalled info0 r]> (plugins s) !! k = Some info' →
            ∃ info, plugins s !! k = Some info ∧
                    lastValidRound info' = lastValidRound info ∧
                    cooldown info' = cooldown info ∧
                    adminPrivileges info' = adminPrivileges info).
  { intros k0 info0 H0 r k info' Hk'. destruct (decide (k = k0)) as [->|Hne].
    - rewrite lookup_insert_eq in Hk'. injection Hk' as <-. exists info0. auto.
    - rewrite lookup_insert_ne in Hk' by congruence. exists info'. auto. }
  destruct c; simpl in Hok;
    try (rewrite ?Hu, ?Hr, ?Hc, ?Hk, ?Hp, ?Hn in Hok; discriminate);
    try solve [method_inv Hok; simpl; split; [reflexivity|]; split; [auto|]; eauto 10].
  - apply rekeyToPlugin_Ok in Hok as (_ & _ & _ & info & Hinfo & ->). simpl.
    split; [reflexivity|]. split; [auto|]. apply (Hstamp _ _ Hinfo).
  - apply rekeyToNamedPlugin_Ok in Hok as (k & _ & Hok).
    apply rekeyToPlugin_Ok in Hok as (_ & _ & _ & info & Hinfo & ->). simpl.
    split; [reflexivity|]. split; [auto|]. apply (Hstamp _ _ Hinfo).
  - method_inv Hok. simpl. split; [reflexivity|]. split; [auto|].
    intros k info' Hk'. apply lookup_delete_Some in Hk' as [_ Hk']. eauto 10.
  - apply removeNamedPlugin_Ok in Hok as (_ & k0 & _ & ->). simpl.
    split; [reflexivity|]. split.
    + intros n k Hn'. apply lookup_delete_Some in Hn' as [_ Hn']. exact Hn'.
    + intros k info' Hk'. apply lookup_delete_Some in Hk' as [_ Hk']. eauto 10.
Qed.

(** After the admin is replaced, by either path, the admins of the wallet
    are the new admin address and the passkeys bound to [AkitaDomain]: a
    co-admin passkey survives the change, the old admin address does not. *)
Theorem admin_handover {imp : Imports} (e : Env) (s s' : State) (c : Call) (newAdmin : Address) :
  c = Arc58_changeAdmin newAdmin ∨
  (∃ p ac, c = Arc58_pluginChangeAdmin p ac newAdmin) →
  dispatch e c s = Ok s' →
  ∀ e', isAdmin e' s' = (sender (txn e') =? newAdmin) || is_coadmin s (sender (txn e')).
Proof.
  intros [->|(p & ac & ->)] Hok e'; simpl in Hok; method_inv Hok; reflexivity.
Qed.

(** *** Holding and returning the account *)

(** [arc58_verifyAuthAddr] changes nothing, and when it succeeds the
    wallet is the one that spends for the controlled account, so that its
    inner payments on behalf of that account are accepted. *)
Theorem verifyAuthAddr_means_control {imp : Imports} (e : Env) (s s' : State) :
  app_address (app e) ≠ zeroAddress →
  arc58_verifyAuthAddr e s = Ok s' →
  s' = s ∧
  spender s (controlledAddress s) = app_address (app e) ∧
  ∀ rcv rk, ∃ s1, sendPayment e s (controlledAddress s) rcv rk = Ok s1.
Proof.
  intros Hnz Hok. method_inv Hok. split; [reflexivity|].
  assert (Hsp : spender s (controlledAddress s) = app_address (app e)).
  { apply N.eqb_eq in Ha. unfold spender, getAuthAddr in *.
    destruct (N.eqb_spec (controlledAddress s) (app_address (app e))) as [Hc|Hc].
    - rewrite Ha. simpl. exact Hc.
    - rewrite Ha. apply N.eqb_neq in Hnz as ->. reflexivity. }
  split; [exact Hsp|]. intros rcv rk. eexists. apply sendPayment_Ok. eauto.
Qed.

(** A successful delegation to a plugin other than the wallet itself puts
    the controlled account under the plugin's escrow address and touches
    no other auth address; until the account is rekeyed back,
    [arc58_verifyAuthAddr] fails and so does a second delegation. *)
Theorem delegation_hands_over {imp : Imports} (e : Env) (s s' : State) (plugin : AppID) :
  app_address plugin ≠ zeroAddress →
  app_address plugin ≠ controlledAddress s →
  app_address plugin ≠ app_address (app e) →
  arc58_rekeyToPlugin e s plugin = Ok s' →
  authAddrs s' = <[controlledAddress s := app_address plugin]> (authAddrs s) ∧
  authAddr s' (controlledAddress s') = app_address plugin ∧
  (∀ e', app e' = app e →
         arc58_verifyAuthAddr e' s' = Err AssertFailedNoMsg ∧
         ∀ p, failed (arc58_rekeyToPlugin e' s' p)).
Proof.
  intros Hz Hc Ha Hok. apply rekeyToPlugin_Ok in Hok as (_ & _ & _ & info & _ & ->).
  assert (Hauth : authAddr (delegated e s plugin info) (controlledAddress s) = app_address plugin).
  { unfold authAddr, delegated, rekey. simpl.
    pose proof Hz as Hz'. pose proof Hc as Hc'.
    apply N.eqb_neq in Hz' as ->. apply N.eqb_neq in Hc' as ->.
    rewrite lookup_insert_eq. reflexivity. }
  split.
  - unfold delegated, rekey. simpl.
    pose proof Hz as Hz'. pose proof Hc as Hc'.
    apply N.eqb_neq in Hz' as ->. apply N.eqb_neq in Hc' as ->. reflexivity.
  - split; [exact Hauth|]. intros e' He'. split.
    + unfold arc58_verifyAuthAddr, getAuthAddr. simpl controlledAddress.
      rewrite Hauth, He'.
      destruct (controlledAddress s =? app_address (app e)).
      * apply N.eqb_neq in Hz as ->. reflexivity.
      * apply N.eqb_neq in Ha as ->. reflexivity.
    + intros p. destruct (arc58_rekeyToPlugin e' (delegated e s plugin info) p) as [s2|err] eqn:H2;
        [exfalso | eexists; reflexivity].
      apply rekeyToPlugin_Ok in H2 as (_ & Hsp & _). simpl controlledAddress in Hsp.
      unfold spender in Hsp. rewrite Hauth, He' in Hsp.
      apply N.eqb_neq in Hz. rewrite Hz in Hsp. contradiction.
Qed.

(** A successful [arc58_rekeyTo] leaves the storage of the wallet as it
    was and changes one auth address at most: the controlled account is
    rekeyed to [addr], rekeying it to itself clears its auth address, and
    the zero address changes nothing. *)
Theorem rekeyTo_effect {imp : Imports} (e : Env) (s s' : State) (addr : Address) :
  arc58_rekeyTo e s addr = Ok s' →
  isAdmin e s = true ∧
  s' = set_authAddrs s (authAddrs s') ∧
  (addr = zeroAddress → authAddrs s' = authAddrs s) ∧
  (addr ≠ zeroAddress → addr = controlledAddress s →
   authAddrs s' = delete (controlledAddress s) (authAddrs s)) ∧
  (addr ≠ zeroAddress → addr ≠ controlledAddress s →
   authAddrs s' = <[controlledAddress s := addr]> (authAddrs s)).
Proof.
  intros Hok. method_inv Hok. split; [assumption|]. split; [reflexivity|].
  simpl. unfold rekey. split; [|split].
  - intros ->. reflexivity.
  - intros Hz Hc. apply N.eqb_neq in Hz as ->. apply N.eqb_eq in Hc as ->. reflexivity.
  - intros Hz Hc. apply N.eqb_neq in Hz as ->. apply N.eqb_neq in Hc as ->. reflexivity.
Qed.

(** *** Groups *)

Lemma run_from_app {imp : Imports} {rt : Runtime} (g : list Txn) (rnd : N) (this : AppID)
    (l1 l2 : list Txn) (i : nat) (s : State) :
  run_from g rnd this i (l1 ++ l2) s =
  run_from g rnd this i l1 s ≫= run_from g rnd this (i + length l1) l2.
Proof.
  revert i s. induction l1 as [|t l1 IH]; intros i s; simpl.
  - rewrite Nat.add_0_r. reflexivity.
  - destruct (exec_txn g rnd this i t s) as [s1|err]; simpl; [|reflexivity].
    rewrite IH. replace (S i + length l1)%nat with (i + S (length l1))%nat by lia.
    reflexivity.
Qed.

(** A group whose last transaction is a call of [arc58_verifyAuthAddr] on
    the wallet goes through only if, at its end, the auth address of the
    controlled account is the one that gives the wallet control. *)
Theorem group_ending_with_verify {imp : Imports} {rt : Runtime}
    (g : list Txn) (t : Txn) (rnd : N) (this : AppID) (s s' : State) :
  is_call_to this t = true →
  decode (applicationArgs t) = Some Arc58_verifyAuthAddr →
  run_group (g ++ [t]) rnd this s = Ok s' →
  authAddr s' (controlledAddress s') =
    (if controlledAddress s' =? app_address this then zeroAddress else app_address this).
Proof.
  intros Hcall Hdec Hrun. unfold run_group in Hrun. rewrite run_from_app in Hrun.
  apply bind_Ok in Hrun as (s1 & _ & Hlast). simpl in Hlast.
  apply bind_Ok in Hlast as (s2 & Hex & Hend). injection Hend as <-.
  unfold exec_txn in Hex. rewrite Hcall, Hdec in Hex. simpl in Hex.
  method_inv Hex. apply N.eqb_eq in Ha. exact Ha.
Qed.

(** *** The factory *)


(** *** The recovery plugin *)


Lemma pluginChangeAdmin_inv {imp : Imports} (e : Env) (s s' : State)
    (pl : AppID) (ac na : Address) :
  arc58_pluginChangeAdmin e s pl ac na = Ok s' →
  sender (txn e) = app_address pl ∧
  authAddr s (controlledAddress s) = app_address pl ∧
  (∃ info, plugins s !! (pl, ac) = Some info ∧ adminPrivileges info ≠ 0) ∧
  s' = set_admin s na.
Proof.
  unfold arc58_pluginChangeAdmin. intros Hok.
  destruct (N.eqb_spec (sender (txn e)) (app_address pl)) as [Hs|]; [|discriminate].
  destruct (N.eqb_spec (authAddr s (controlledAddress s)) (app_address pl)) as [Ha|];
    [|discriminate].
  destruct (plugins s !! (pl, ac)) as [info|]; [|discriminate].
  destruct (N.eqb_spec (adminPrivileges info) 0) as [|Hp]; [discriminate|].
  injection Hok as <-. eauto 10.
Qed.


(** ** The further properties at concrete inputs *)

Lemma verifyRekey_iff_return_step_witness :
  verifyRekeyToAbstractedAccount (imp := sample_imports)
    (sample_env 3 0 [call_txn 3 "plug"; call_txn 3 "vaa0"] 10) wallet = Ok tt ∧
  verifyRekeyToAbstractedAccount (imp := sample_imports)
    (sample_env 3 2 [call_txn 3 "plug"; call_txn 3 "vaa0"] 10) wallet = Err AssertFailedNoMsg.
Proof.
  split.
  - apply (proj1 (verifyRekey_iff_return_step (imp := sample_imports)
                    (sample_env 3 0 [call_txn 3 "plug"; call_txn 3 "vaa0"] 10) wallet)).
    exists 1%nat, (call_txn 3 "vaa0"). split; [simpl; lia|]. split; reflexivity.
  - apply (proj2 (verifyRekey_iff_return_step (imp := sample_imports)
                    (sample_env 3 2 [call_txn 3 "plug"; call_txn 3 "vaa0"] 10) wallet)).
    simpl. lia.
Defined.

Lemma stamps_le_preserved_witness :
  stamps_le 12 wallet_used ∧
  ∃ b, pluginCallAllowed (sample_env 3 0 [] 12) wallet_used 7 zeroAddress = Ok b.
Proof.
  assert (Hinv : stamps_le 12 wallet_used).
  { intros k info Hk. simpl in Hk. apply lookup_singleton_Some in Hk as [_ <-]. simpl. lia. }
  split; [exact Hinv|].
  apply (proj1 (stamps_le_preserved (imp := sample_imports) (sample_env 3 0 [] 12)
                  wallet_used Hinv)).
Defined.

Lemma future_stamp_underflow_witness :
  arc58_rekeyToPlugin (imp := sample_imports) (sample_env 3 0 [] 3) wallet_used 7 = Err Underflow.
Proof.
  apply (proj2 (future_stamp_underflow (imp := sample_imports) (sample_env 3 0 [] 3)
                  wallet_used 7 zeroAddress (mkPluginInfo 1000 5 7 0)
                  eq_refl ltac:(simpl; lia) ltac:(simpl; lia))).
  reflexivity.
Defined.

Lemma admin_only_operations_witness :
  dispatch (imp := sample_imports) (sample_env 1060 0 [] 10)
    (Arc58_addPlugin 7 zeroAddress 1000 0 true false EmptyString) wallet =
  Err (AssertFailed ONLY_ADMIN_CAN_ADD_PLUGIN).
Proof.
  apply (admin_only_operations (imp := sample_imports) (sample_env 1060 0 [] 10) wallet
           (Arc58_addPlugin 7 zeroAddress 1000 0 true false EmptyString));
    discriminate.
Defined.



Lemma fresh_registration_window_witness :
  ∃ s', dispatch (imp := sample_imports) (sample_env 1 0 [] 2)
          (Arc58_addPlugin 7 zeroAddress 1000 5 false false EmptyString) wallet = Ok s' ∧
        pluginCallAllowed (sample_env 3 0 [] 3) s' 7 zeroAddress = Ok false ∧
        pluginCallAllowed (sample_env 3 0 [] 5) s' 7 zeroAddress = Ok true.
Proof.
  eexists. split; [reflexivity|].
  pose proof (proj1 (fresh_registration_window (imp := sample_imports) (sample_env 1 0 [] 2)
                       wallet _ (Arc58_addPlugin 7 zeroAddress 1000 5 false false EmptyString)
                       7 zeroAddress 1000 5
                       (or_introl (ex_intro _ false (ex_intro _ false
                          (ex_intro _ EmptyString eq_refl))))
                       eq_refl)) as Hwin.
  split; [exact (Hwin (sample_env 3 0 [] 3)) | exact (Hwin (sample_env 3 0 [] 5))].
Defined.

Lemma cooldown_after_use_witness :
  ∃ s', arc58_rekeyToPlugin (imp := sample_imports)
          (sample_env 3 0 [call_txn 3 "plug"; call_txn 3 "vaa0"] 12) wallet_used 7 = Ok s' ∧
        pluginCallAllowed (sample_env 3 0 [] 17) s' 7 zeroAddress = Ok true.
Proof.
  eexists. split; [reflexivity|].
  destruct (cooldown_after_use (imp := sample_imports)
              (sample_env 3 0 [call_txn 3 "plug"; call_txn 3 "vaa0"] 12) wallet_used _ 7 eq_refl)
    as (info & Hinfo & Hiff).
  vm_compute in Hinfo. injection Hinfo as <-.
  apply (proj2 (Hiff (sample_env 3 0 [] 17))). cbn. lia.
Defined.



Lemma removed_plugin_unusable_witness :
  ∃ s1 s2,
    arc58_removePlugin (imp := sample_imports) (sample_env 1 0 [] 10) wallet_named
      7 zeroAddress = Ok s1 ∧
    arc58_removePlugin (imp := sample_imports) (sample_env 1 0 [] 10) s1 7 3 = Ok s2 ∧
    arc58_rekeyToPlugin (imp := sample_imports)
      (sample_env 3 0 [call_txn 3 "plug"; call_txn 3 "vaa0"] 11) s2 7 =
    Err (AssertFailed SENDER_NOT_ALLOWED_TO_CALL_PLUGIN).
Proof.
  do 2 eexists. split; [reflexivity|]. split; [reflexivity|].
  apply (removed_plugin_unusable (imp := sample_imports)
           (sample_env 1 0 [] 10) (sample_env 1 0 [] 10)
           (sample_env 3 0 [call_txn 3 "plug"; call_txn 3 "vaa0"] 11)
           wallet_named _ _ 7 eq_refl eq_refl).
Defined.

Lemma passkeys_never_removed_witness :
  ∃ s', dispatch (imp := sample_imports) (sample_env 1 0 [] 10)
          (Arc58_removePlugin 7 3) wallet_passkey = Ok s' ∧
        passkeys s' !! 3 = Some "akita".
Proof.
  eexists. split; [reflexivity|].
  destruct (passkeys_never_removed (imp := sample_imports) (sample_env 1 0 [] 10)
              (Arc58_removePlugin 7 3) wallet_passkey _ 3 "akita" eq_refl eq_refl)
    as [Hkept|(_ & p & lvr & cd & ap & d' & Hc & _)]; [exact Hkept | discriminate Hc].
Defined.

Lemma admin_changed_only_by_witness :
  ∃ s', dispatch (imp := sample_imports) (sample_env 1 0 [] 10)
          (Arc58_changeAdmin 8) wallet = Ok s' ∧
        admin s' = 8 ∧
        isAdmin (imp := sample_imports) (sample_env 1 0 [] 10) wallet = true.
Proof.
  eexists. split; [reflexivity|]. split; [reflexivity|].
  destruct (admin_changed_only_by (imp := sample_imports) (sample_env 1 0 [] 10)
              (Arc58_changeAdmin 8) wallet _ eq_refl ltac:(discriminate))
    as [(v & ctrl & r & Hc & _)|[[_ Hadm]|(p & ac & info & Hc & _)]];
    [discriminate Hc | exact Hadm | discriminate Hc].
Defined.

Lemma non_admin_cannot_grant_witness :
  ∃ s', dispatch (imp := sample_imports) (sample_env 1060 0 [] 10)
          (Arc58_removePlugin 7 zeroAddress) wallet_named = Ok s' ∧
        passkeys s' = passkeys wallet_named.
Proof.
  eexists. split; [reflexivity|].
  apply (proj1 (non_admin_cannot_grant (imp := sample_imports) (sample_env 1060 0 [] 10)
                  (Arc58_removePlugin 7 zeroAddress) wallet_named _ eq_refl eq_refl)).
Defined.

Lemma admin_handover_witness :
  ∃ s', dispatch (imp := sample_imports) (sample_env 1 0 [] 10)
          (Arc58_changeAdmin 8) wallet_passkey = Ok s' ∧
        isAdmin (imp := sample_imports) (sample_env 1 0 [] 11) s' = false ∧
        isAdmin (imp := sample_imports) (sample_env 3 0 [] 11) s' = true ∧
        isAdmin (imp := sample_imports) (sample_env 8 0 [] 11) s' = true.
Proof.
  eexists. split; [reflexivity|].
  pose proof (admin_handover (imp := sample_imports) (sample_env 1 0 [] 10) wallet_passkey _
                (Arc58_changeAdmin 8) 8 (or_introl eq_refl) eq_refl) as Hall.
  split; [|split].
  - rewrite (Hall (sample_env 1 0 [] 11)). reflexivity.
  - rewrite (Hall (sample_env 3 0 [] 11)). reflexivity.
  - rewrite (Hall (sample_env 8 0 [] 11)). reflexivity.
Defined.

Lemma verifyAuthAddr_means_control_witness :
  spender wallet (controlledAddress wallet) = 1050 ∧
  ∃ s1, sendPayment (imp := sample_imports) (sample_env 3 0 [] 10) wallet
          (controlledAddress wallet) 77 77 = Ok s1.
Proof.
  destruct (verifyAuthAddr_means_control (imp := sample_imports) (sample_env 3 0 [] 10)
              wallet wallet ltac:(discriminate) eq_refl) as (_ & Hsp & Hpay).
  split; [exact Hsp | exact (Hpay 77 77)].
Defined.

Lemma delegation_hands_over_witness :
  ∃ s', arc58_rekeyToPlugin (imp := sample_imports)
          (sample_env 3 0 [call_txn 3 "plug"; call_txn 3 "vaa0"] 10) wallet_named 7 = Ok s' ∧
        authAddr s' (controlledAddress s') = 1007 ∧
        arc58_verifyAuthAddr (imp := sample_imports)
          (sample_env 3 1 [call_txn 3 "plug"; call_txn 3 "vaa0"] 10) s' = Err AssertFailedNoMsg.
Proof.
  eexists. split; [reflexivity|].
  destruct (delegation_hands_over (imp := sample_imports)
              (sample_env 3 0 [call_txn 3 "plug"; call_txn 3 "vaa0"] 10) wallet_named _ 7
              ltac:(discriminate) ltac:(discriminate) ltac:(discriminate) eq_refl)
    as (_ & Hauth & Hafter).
  split; [exact Hauth|].
  exact (proj1 (Hafter (sample_env 3 1 [call_txn 3 "plug"; call_txn 3 "vaa0"] 10) eq_refl)).
Defined.

Lemma rekeyTo_effect_witness :
  ∃ s', arc58_rekeyTo (imp := sample_imports)
          (sample_env 1 0 [call_txn 1 "call"; call_txn 1 "vaa0"] 10) wallet 77 = Ok s' ∧
        authAddrs s' = <[2 := 77]> (authAddrs wallet).
Proof.
  eexists. split; [reflexivity|].
  apply (proj2 (proj2 (proj2 (proj2 (rekeyTo_effect (imp := sample_imports)
           (sample_env 1 0 [call_txn 1 "call"; call_txn 1 "vaa0"] 10) wallet _ 77 eq_refl)))));
    discriminate.
Defined.

Lemma group_ending_with_verify_witness :
  ∃ s', run_group (imp := sample_imports) (rt := sample_runtime)
          ([mkTxn 3 zeroAddress Payment 0 []] ++ [call_txn 3 "vaa0"]) 10 50 wallet = Ok s' ∧
        authAddr s' (controlledAddress s') = 1050.
Proof.
  eexists. split; [reflexivity|].
  apply (group_ending_with_verify (imp := sample_imports) (rt := sample_runtime)
           [mkTxn 3 zeroAddress Payment 0 []] (call_txn 3 "vaa0") 10 50 wallet _
           eq_refl eq_refl eq_refl).
Defined.



